(** * go-nebulas, core/transaction.go: a shallow embedding and its properties

    The file follows [core/transaction.go]: the transaction record, its wire
    conversion ([ToProto], [FromProto]), the gas arithmetic
    ([MinBalanceRequired], [GasCountOfTxBase], [PayloadGasLimit]), the
    execution state machine ([VerifyExecution] with [gasConsumption] and
    [triggerEvent]), the integrity check ([VerifyIntegrity], [verifySign])
    and the canonical hash ([HashTransaction]).

    Conventions.
    - [util.Uint128] embeds a [*big.Int]; every arithmetic step of the file
      goes through the embedded big integer ([Add], [Sub], [Mul], [Cmp]), so
      an amount is an unbounded [Z] here and only the fixed-size encoder
      looks at the 128-bit range.
    - Go's [(T, error)] is [result T]; a lone [error] is [option Error]
      with [None] for [nil].
    - [[]byte] is [list byte]; a nil slice and an empty slice are both [[]].
    - Pointers ([*Address], [*util.Uint128], [*corepb.Data]) are modelled by
      the value they point to; a nil pointer, on which the Go code panics,
      is outside the model.
    - Logging and the metrics counters have no effect on results or state
      and are left out. *)

From Stdlib Require Import ZArith Lia List.
From Stdlib.Strings Require Import Byte.
From stdpp Require Import base decidable countable gmap list strings.
Import ListNotations.
Local Open Scope Z_scope.

(** ** Bytes *)

Definition bytes := list byte.

#[global] Instance byte_eqdec : EqDecision byte := Byte.byte_eq_dec.

#[global] Instance byte_countable : Countable byte :=
  inj_countable Byte.to_N Byte.of_N Byte.of_to_N.

Definition Z_of_byte (b : byte) : Z := Z.of_N (Byte.to_N b).

Definition byte_of_Z (z : Z) : byte :=
  match Byte.of_N (Z.to_N (z mod 256)) with
  | Some b => b
  | None => x00
  end.

(** [be_bytes n z]: the [n] low-order base-256 digits of [z], most
    significant first (two's complement for a negative [z]). *)
Fixpoint be_bytes (n : nat) (z : Z) : bytes :=
  match n with
  | O => []
  | S k => be_bytes k (z / 256) ++ [byte_of_Z (z mod 256)]
  end.

(** [be_value bs]: the unsigned number a big-endian byte string denotes. *)
Definition be_value (bs : bytes) : Z :=
  fold_left (fun acc b => acc * 256 + Z_of_byte b) bs 0.

(** ** Errors and results *)

Inductive Error : Type :=
| ErrInsufficientBalance
| ErrOutOfGasLimit
| ErrInvalidTxPayloadType
| ErrInvalidChainID
| ErrInvalidTransactionHash
| ErrInvalidTransactionSigner
| ErrUint128Underflow
| ErrUint128Overflow
| ErrUint128InvalidBytesSize
| ErrNotTransactionMessage   (* "Protobug Message cannot be converted into Transaction" *)
| ErrExternal (msg : string). (* an error raised by a collaborator *)

#[global] Instance Error_eq_dec : EqDecision Error.
Proof. solve_decision. Defined.

Inductive result (A : Type) : Type :=
| Ok (a : A)
| Err (e : Error).
Arguments Ok {A} a.
Arguments Err {A} e.

(** ** util.Uint128 *)

Module util.

Definition Uint128 := Z.

Definition Uint128Bytes : nat := 16.
Definition Uint128Bits : Z := 128.

Definition NewUint128 : Uint128 := 0.
Definition NewUint128FromInt (i : Z) : Uint128 := i.
Definition NewUint128FromBigInt (i : Z) : Uint128 := i.

(** Modelled from the spec: [util/uint128.go] is not among the sources.
    The spec calls Uint128 an unsigned 128-bit integer; the wrapped big
    integer can leave that range, and the encoder below is where the
    source sees it (its callers test the returned error). *)
Definition Validate (u : Uint128) : option Error :=
  if u <? 0 then Some ErrUint128Underflow
  else if 2 ^ Uint128Bits <=? u then Some ErrUint128Overflow
  else None.

(** Modelled from the spec: the fixed-size (16-byte) big-endian encoding
    of a Uint128, an error when the value has none. *)
Definition ToFixedSizeByteSlice (u : Uint128) : result bytes :=
  match Validate u with
  | Some e => Err e
  | None => Ok (be_bytes Uint128Bytes u)
  end.

(** Modelled from the spec: the decoder of the same encoding; a slice of
    another length is refused. *)
Definition NewUint128FromFixedSizeByteSlice (bs : bytes) : result Uint128 :=
  if Nat.eqb (length bs) Uint128Bytes then Ok (be_value bs)
  else Err ErrUint128InvalidBytesSize.

End util.

(** ** util/byteutils *)

Module byteutils.

Definition Hash := bytes.

(** Modelled from the spec: [util/byteutils] is not among the sources;
    the three encoders are the big-endian ones of the given width. *)
Definition FromUint64 (v : Z) : bytes := be_bytes 8 v.
Definition FromInt64 (v : Z) : bytes := be_bytes 8 v.
Definition FromUint32 (v : Z) : bytes := be_bytes 4 v.

(** [Hash.Equals]: byte equality. *)
Definition Equals (h1 h2 : Hash) : bool := bool_decide (h1 = h2).

End byteutils.

(** ** Addresses, the data record and the wire message *)

Record Address : Type := mkAddress { address : byteutils.Hash }.

#[global] Instance Address_eq_dec : EqDecision Address.
Proof. solve_decision. Defined.

(** [Address.Equals]: byte equality of the two addresses. *)
Definition Address_Equals (a b : Address) : bool :=
  byteutils.Equals (address a) (address b).

Module corepb.

(** [corepb.Data]: the (type, payload) pair. *)
Record Data : Type := mkData { Type_ : string; Payload : bytes }.

(** [corepb.Transaction]: the wire form. *)
Record Transaction : Type := mkTransaction {
  Hash : bytes;
  From : bytes;
  To : bytes;
  Value : bytes;
  Nonce : Z;       (* uint64 *)
  Timestamp : Z;   (* int64 *)
  Data_ : Data;
  ChainId : Z;     (* uint32 *)
  GasPrice : bytes;
  GasLimit : bytes;
  Alg : Z;         (* uint32 *)
  Sign : bytes
}.

End corepb.

(** [proto.Message]: the messages this file meets. *)
Inductive proto_Message : Type :=
| MsgTransaction (m : corepb.Transaction)
| MsgData (d : corepb.Data).

(** ** Constants *)

(** [TransactionMaxGasPrice], max gasPrice: 50 * 10 ** 9 *)
Definition TransactionMaxGasPrice : util.Uint128 := 50 * 10 ^ 9.
(** [TransactionMaxGas], max gas: 50 * 10 ** 9 *)
Definition TransactionMaxGas : util.Uint128 := 50 * 10 ^ 9.
(** [TransactionGasPrice], default gasPrice: 10 ** 6 *)
Definition TransactionGasPrice : util.Uint128 := 10 ^ 6.
(** [MinGasCountPerTransaction], default gas for normal transaction *)
Definition MinGasCountPerTransaction : util.Uint128 := util.NewUint128FromInt 20000.
(** [GasCountPerByte], per byte of data attached to a transaction gas cost *)
Definition GasCountPerByte : util.Uint128 := util.NewUint128FromInt 1.
Definition DelegateBaseGasCount : util.Uint128 := util.NewUint128FromInt 20000.
Definition CandidateBaseGasCount : util.Uint128 := util.NewUint128FromInt 20000.
Definition ZeroGasCount : util.Uint128 := util.NewUint128.

(** ** The transaction *)

Record Transaction : Type := mkTx {
  tx_hash : byteutils.Hash;
  tx_from : Address;
  tx_to : Address;
  tx_value : util.Uint128;
  tx_nonce : Z;        (* uint64 *)
  tx_timestamp : Z;    (* int64 *)
  tx_data : corepb.Data;
  tx_chainID : Z;      (* uint32 *)
  tx_gasPrice : util.Uint128;
  tx_gasLimit : util.Uint128;
  tx_alg : byte;       (* uint8 *)
  tx_sign : byteutils.Hash
}.

(** [NewTransaction] create #Transaction instance.  A nil amount is
    [None]; [now] is the reading of the clock, [time.Now().Unix()]. *)
Definition NewTransaction (chainID : Z) (from to : Address) (value : util.Uint128)
  (nonce : Z) (payloadType : string) (payload : bytes)
  (gasPrice gasLimit : option util.Uint128) (now : Z) : Transaction :=
  (* if gasPrice is not specified, use the default gasPrice *)
  let gasPrice :=
    match gasPrice with
    | Some p => if p <=? util.NewUint128FromInt 0 then TransactionGasPrice else p
    | None => TransactionGasPrice
    end in
  let gasLimit :=
    match gasLimit with
    | Some l => if l <=? util.NewUint128FromInt 0 then MinGasCountPerTransaction else l
    | None => MinGasCountPerTransaction
    end in
  {| tx_hash := [];
     tx_from := from;
     tx_to := to;
     tx_value := value;
     tx_nonce := nonce;
     tx_timestamp := now;
     tx_data := corepb.mkData payloadType payload;
     tx_chainID := chainID;
     tx_gasPrice := gasPrice;
     tx_gasLimit := gasLimit;
     tx_alg := x00;
     tx_sign := [] |}.

(** Integer conversions [uint32(x)] from a uint8 and [uint8(x)] from a
    uint32 (the latter keeps the low eight bits). *)
Definition uint32_of_uint8 (b : byte) : Z := Z_of_byte b.
Definition uint8_of_uint32 (z : Z) : byte := byte_of_Z (z mod 256).

Definition GasPrice (tx : Transaction) : util.Uint128 := tx_gasPrice tx.
Definition GasLimit (tx : Transaction) : util.Uint128 := tx_gasLimit tx.
Definition Data (tx : Transaction) : bytes := corepb.Payload (tx_data tx).

(** [ToProto] converts domain Tx to proto Tx. *)
Definition ToProto (tx : Transaction) : result proto_Message :=
  match util.ToFixedSizeByteSlice (tx_value tx) with
  | Err e => Err e
  | Ok value =>
    match util.ToFixedSizeByteSlice (tx_gasPrice tx) with
    | Err e => Err e
    | Ok gasPrice =>
      match util.ToFixedSizeByteSlice (tx_gasLimit tx) with
      | Err e => Err e
      | Ok gasLimit =>
        Ok (MsgTransaction {|
          corepb.Hash := tx_hash tx;
          corepb.From := address (tx_from tx);
          corepb.To := address (tx_to tx);
          corepb.Value := value;
          corepb.Nonce := tx_nonce tx;
          corepb.Timestamp := tx_timestamp tx;
          corepb.Data_ := tx_data tx;
          corepb.ChainId := tx_chainID tx;
          corepb.GasPrice := gasPrice;
          corepb.GasLimit := gasLimit;
          corepb.Alg := uint32_of_uint8 (tx_alg tx);
          corepb.Sign := tx_sign tx |})
      end
    end
  end.

(** Field updates of the receiver, one per assignment of [FromProto]. *)
Definition set_hash h tx := mkTx h (tx_from tx) (tx_to tx) (tx_value tx) (tx_nonce tx)
  (tx_timestamp tx) (tx_data tx) (tx_chainID tx) (tx_gasPrice tx) (tx_gasLimit tx)
  (tx_alg tx) (tx_sign tx).
Definition set_from a tx := mkTx (tx_hash tx) a (tx_to tx) (tx_value tx) (tx_nonce tx)
  (tx_timestamp tx) (tx_data tx) (tx_chainID tx) (tx_gasPrice tx) (tx_gasLimit tx)
  (tx_alg tx) (tx_sign tx).
Definition set_to a tx := mkTx (tx_hash tx) (tx_from tx) a (tx_value tx) (tx_nonce tx)
  (tx_timestamp tx) (tx_data tx) (tx_chainID tx) (tx_gasPrice tx) (tx_gasLimit tx)
  (tx_alg tx) (tx_sign tx).
Definition set_value v tx := mkTx (tx_hash tx) (tx_from tx) (tx_to tx) v (tx_nonce tx)
  (tx_timestamp tx) (tx_data tx) (tx_chainID tx) (tx_gasPrice tx) (tx_gasLimit tx)
  (tx_alg tx) (tx_sign tx).
Definition set_nonce n tx := mkTx (tx_hash tx) (tx_from tx) (tx_to tx) (tx_value tx) n
  (tx_timestamp tx) (tx_data tx) (tx_chainID tx) (tx_gasPrice tx) (tx_gasLimit tx)
  (tx_alg tx) (tx_sign tx).
Definition set_timestamp t tx := mkTx (tx_hash tx) (tx_from tx) (tx_to tx) (tx_value tx)
  (tx_nonce tx) t (tx_data tx) (tx_chainID tx) (tx_gasPrice tx) (tx_gasLimit tx)
  (tx_alg tx) (tx_sign tx).
Definition set_data d tx := mkTx (tx_hash tx) (tx_from tx) (tx_to tx) (tx_value tx)
  (tx_nonce tx) (tx_timestamp tx) d (tx_chainID tx) (tx_gasPrice tx) (tx_gasLimit tx)
  (tx_alg tx) (tx_sign tx).
Definition set_chainID c tx := mkTx (tx_hash tx) (tx_from tx) (tx_to tx) (tx_value tx)
  (tx_nonce tx) (tx_timestamp tx) (tx_data tx) c (tx_gasPrice tx) (tx_gasLimit tx)
  (tx_alg tx) (tx_sign tx).
Definition set_gasPrice g tx := mkTx (tx_hash tx) (tx_from tx) (tx_to tx) (tx_value tx)
  (tx_nonce tx) (tx_timestamp tx) (tx_data tx) (tx_chainID tx) g (tx_gasLimit tx)
  (tx_alg tx) (tx_sign tx).
Definition set_gasLimit g tx := mkTx (tx_hash tx) (tx_from tx) (tx_to tx) (tx_value tx)
  (tx_nonce tx) (tx_timestamp tx) (tx_data tx) (tx_chainID tx) (tx_gasPrice tx) g
  (tx_alg tx) (tx_sign tx).
Definition set_alg a tx := mkTx (tx_hash tx) (tx_from tx) (tx_to tx) (tx_value tx)
  (tx_nonce tx) (tx_timestamp tx) (tx_data tx) (tx_chainID tx) (tx_gasPrice tx)
  (tx_gasLimit tx) a (tx_sign tx).
Definition set_sign s tx := mkTx (tx_hash tx) (tx_from tx) (tx_to tx) (tx_value tx)
  (tx_nonce tx) (tx_timestamp tx) (tx_data tx) (tx_chainID tx) (tx_gasPrice tx)
  (tx_gasLimit tx) (tx_alg tx) s.

(** [FromProto] converts proto Tx into domain Tx.  The receiver is updated
    in place, field by field, so the result carries the receiver as the
    call leaves it together with the returned error: a failed decode of
    [Value] leaves [hash], [from] and [to] already overwritten. *)
Definition FromProto (tx : Transaction) (msg : proto_Message)
  : Transaction * option Error :=
  match msg with
  | MsgTransaction msg =>
    let tx := set_hash (corepb.Hash msg) tx in
    let tx := set_from (mkAddress (corepb.From msg)) tx in
    let tx := set_to (mkAddress (corepb.To msg)) tx in
    match util.NewUint128FromFixedSizeByteSlice (corepb.Value msg) with
    | Err e => (tx, Some e)
    | Ok value =>
      let tx := set_value value tx in
      let tx := set_nonce (corepb.Nonce msg) tx in
      let tx := set_timestamp (corepb.Timestamp msg) tx in
      let tx := set_data (corepb.Data_ msg) tx in
      let tx := set_chainID (corepb.ChainId msg) tx in
      match util.NewUint128FromFixedSizeByteSlice (corepb.GasPrice msg) with
      | Err e => (tx, Some e)
      | Ok gasPrice =>
        let tx := set_gasPrice gasPrice tx in
        match util.NewUint128FromFixedSizeByteSlice (corepb.GasLimit msg) with
        | Err e => (tx, Some e)
        | Ok gasLimit =>
          let tx := set_gasLimit gasLimit tx in
          let tx := set_alg (uint8_of_uint32 (corepb.Alg msg)) tx in
          let tx := set_sign (corepb.Sign msg) tx in
          (tx, None)
        end
      end
    end
  | _ => (tx, Some ErrNotTransactionMessage)
  end.

(** [MinBalanceRequired] returns gasprice * gaslimit. *)
Definition MinBalanceRequired (tx : Transaction) : util.Uint128 :=
  let total := GasPrice tx * GasLimit tx in
  util.NewUint128FromBigInt total.

(** [DataLen] return the length of payload. *)
Definition DataLen (tx : Transaction) : Z :=
  Z.of_nat (length (corepb.Payload (tx_data tx))).

(** [GasCountOfTxBase] calculate the actual amount for a tx with data. *)
Definition GasCountOfTxBase (tx : Transaction) : util.Uint128 :=
  let txGas := util.NewUint128 in
  let txGas := txGas + MinGasCountPerTransaction in
  if 0 <? DataLen tx then
    let dataGas := util.NewUint128FromInt (DataLen tx) * GasCountPerByte in
    txGas + dataGas
  else txGas.

(** ** Error threading *)

Definition bind {A B : Type} (r : result A) (k : A -> result B) : result B :=
  match r with
  | Ok a => k a
  | Err e => Err e
  end.

Notation "'try' x <~ e 'in' k" := (bind e (fun x => k))
  (at level 10, x name, e at level 100, k at level 200).

(** ** Collaborators of the hash: crypto/hash and protobuf *)

(** The digest function and the protobuf encoder are outside this file;
    the development is parametric in them. *)
Class HashEnv : Type := {
  sha3_256 : bytes -> bytes;
  proto_Marshal : corepb.Data -> result bytes
}.

(** Modelled from the spec: [hash.Sha3256] ([crypto/hash] is not among the
    sources): the SHA3-256 digest of its arguments laid end to end. *)
Definition Sha3256 `{HashEnv} (args : list bytes) : byteutils.Hash :=
  sha3_256 (concat args).

(** [HashTransaction] hash the transaction. *)
Definition HashTransaction `{HashEnv} (tx : Transaction) : result byteutils.Hash :=
  try value <~ util.ToFixedSizeByteSlice (tx_value tx) in
  try data <~ proto_Marshal (tx_data tx) in
  try gasPrice <~ util.ToFixedSizeByteSlice (tx_gasPrice tx) in
  try gasLimit <~ util.ToFixedSizeByteSlice (tx_gasLimit tx) in
  Ok (Sha3256 [
    address (tx_from tx);
    address (tx_to tx);
    value;
    byteutils.FromUint64 (tx_nonce tx);
    byteutils.FromInt64 (tx_timestamp tx);
    data;
    byteutils.FromUint32 (tx_chainID tx);
    gasPrice;
    gasLimit ]).

(** The hash the specification gives, in its words: SHA3-256 of
    from ‖ to ‖ value (16 bytes, big-endian) ‖ nonce (8) ‖ timestamp (8) ‖
    the serialized data record ‖ chain id (4) ‖ gas price (16) ‖
    gas limit (16). *)
Definition canonicalHash `{HashEnv} (tx : Transaction) (data : bytes) : byteutils.Hash :=
  sha3_256
    (address (tx_from tx) ++ address (tx_to tx) ++ be_bytes 16 (tx_value tx) ++
     be_bytes 8 (tx_nonce tx) ++ be_bytes 8 (tx_timestamp tx) ++ data ++
     be_bytes 4 (tx_chainID tx) ++ be_bytes 16 (tx_gasPrice tx) ++
     be_bytes 16 (tx_gasLimit tx)).

(** ** Collaborators of the signature check: crypto and keystore *)

Class SigEnv : Type := {
  Signature : Type;
  PublicKey : Type;
  (* crypto.NewSignature(keystore.Algorithm(alg)) *)
  NewSignature : byte -> result Signature;
  (* signature.RecoverPublic(hash, sign) *)
  RecoverPublic : Signature -> byteutils.Hash -> byteutils.Hash -> result PublicKey;
  (* pub.Encoded() *)
  Encoded : PublicKey -> result bytes;
  NewAddressFromPublicKey : bytes -> result Address;
  (* signature.Sign(hash) and signature.Algorithm() of an initialised signer *)
  SignHash : Signature -> byteutils.Hash -> result byteutils.Hash;
  Algorithm : Signature -> byte
}.

(** [Sign] sign transaction.  The receiver is unchanged when an error is
    returned. *)
Definition Sign `{HashEnv} `{SigEnv} (tx : Transaction) (signature : Signature)
  : Transaction * option Error :=
  match HashTransaction tx with
  | Err err => (tx, Some err)
  | Ok hash =>
    match SignHash signature hash with
    | Err err => (tx, Some err)
    | Ok sign =>
      let tx := set_hash hash tx in
      let tx := set_alg (Algorithm signature) tx in
      let tx := set_sign sign tx in
      (tx, None)
    end
  end.

Definition verifySign `{SigEnv} (tx : Transaction) : option Error :=
  match NewSignature (tx_alg tx) with
  | Err err => Some err
  | Ok signature =>
    match RecoverPublic signature (tx_hash tx) (tx_sign tx) with
    | Err err => Some err
    | Ok pub =>
      match Encoded pub with
      | Err err => Some err
      | Ok pubdata =>
        match NewAddressFromPublicKey pubdata with
        | Err err => Some err
        | Ok addr =>
          if negb (Address_Equals (tx_from tx) addr)
          then Some ErrInvalidTransactionSigner
          else None
        end
      end
    end
  end.

(** [VerifyIntegrity] return transaction verify result, including Hash and
    Signature. *)
Definition VerifyIntegrity `{HashEnv} `{SigEnv} (tx : Transaction) (chainID : Z)
  : option Error :=
  (* check ChainID. *)
  if negb (tx_chainID tx =? chainID) then Some ErrInvalidChainID
  else
    (* check Hash. *)
    match HashTransaction tx with
    | Err err => Some err
    | Ok wantedHash =>
      if negb (byteutils.Equals wantedHash (tx_hash tx))
      then Some ErrInvalidTransactionHash
      else
        (* check Signature. *)
        match verifySign tx with
        | Some err => Some err
        | None => None
        end
    end.

(** The address the signature of [tx] binds it to: the four recovery steps
    of [verifySign] in a row. *)
Definition recoveredAddress `{SigEnv} (tx : Transaction) : result Address :=
  try signature <~ NewSignature (tx_alg tx) in
  try pub <~ RecoverPublic signature (tx_hash tx) (tx_sign tx) in
  try pubdata <~ Encoded pub in
  NewAddressFromPublicKey pubdata.

(** ** The block: account state, batch and event log *)

(** Modelled from the spec: the account state ([core/state]) is not among
    the sources.  It is the store of balances by address;
    [GetOrCreateUserAccount] hands out the account under an address, a
    fresh one holding the zero default, and an account handle stays bound
    to its address, so two handles for one address are one account. *)
Abbreviation AccountState := (gmap bytes Z).

Definition Account := bytes.

Definition GetOrCreateUserAccount (addr : byteutils.Hash) : Account := addr.

Definition Balance (acc : Account) (st : AccountState) : util.Uint128 :=
  default 0 (st !! acc).

Definition AddBalance (acc : Account) (value : util.Uint128) (st : AccountState)
  : AccountState :=
  <[acc := Balance acc st + value]> st.

Definition SubBalance (acc : Account) (value : util.Uint128) (st : AccountState)
  : AccountState :=
  <[acc := Balance acc st - value]> st.

(** The document an event carries.  [triggerEvent] marshals either the
    wire transaction alone or the struct
    [{Transaction proto.Message; Error error}]; the event keeps the value
    that is marshalled.  [ToProto]'s error is dropped by the caller, so
    the transaction slot may be empty. *)
Inductive EventData : Type :=
| TxJSON (pbTx : option proto_Message)
| TxErrJSON (Transaction : option proto_Message) (Error : Error).

Record Event : Type := mkEvent { Topic : string; Data_ : EventData }.

(** Modelled from the spec: the two event topics. *)
Definition TopicExecuteTxSuccess : string := "chain.executeTxSuccess".
Definition TopicExecuteTxFailed : string := "chain.executeTxFailed".

(** The calls made on the batch, oldest first. *)
Inductive BatchCall : Type :=
| CallBeginBatch
| CallCommit
| CallRollBack.

#[global] Instance BatchCall_eq_dec : EqDecision BatchCall.
Proof. solve_decision. Defined.

(** Modelled from the spec: the block ([core/block.go]) is not among the
    sources.  It provides the account state, the coinbase address and the
    event sink; [batch] holds the account state saved when a batch was
    opened and [batchCalls] the calls made on the batch so far. *)
Record Block : Type := mkBlock {
  accState : AccountState;
  coinbase : byteutils.Hash;
  events : list (byteutils.Hash * Event);
  batch : option AccountState;
  batchCalls : list BatchCall
}.

Definition CoinbaseHash (block : Block) : byteutils.Hash := coinbase block.

Definition set_accState (st : AccountState) (block : Block) : Block :=
  mkBlock st (coinbase block) (events block) (batch block) (batchCalls block).

(** Modelled from the spec: [recordEvent] appends to the block's log,
    keyed by the transaction hash. *)
Definition recordEvent (txHash : byteutils.Hash) (event : Event) (block : Block)
  : Block :=
  mkBlock (accState block) (coinbase block) (events block ++ [(txHash, event)])
    (batch block) (batchCalls block).

(** ** Payloads and the payload context *)

Record PayloadContext : Type := mkCtx { ctx_block : Block; ctx_tx : Transaction }.

Definition NewPayloadContext (block : Block) (tx : Transaction) : PayloadContext :=
  mkCtx block tx.

(** The payload interface [TxPayload] with its five loaders, and the one
    way a batch can fail to open.  [Execute] performs the payload's own
    changes on the account state of its context and reports the gas it
    used. *)
Class PayloadEnv : Type := {
  TxPayload : Type;
  BaseGasCount : TxPayload -> util.Uint128;
  Execute : TxPayload -> PayloadContext -> (util.Uint128 * option Error) * AccountState;
  LoadBinaryPayload : bytes -> result TxPayload;
  LoadDeployPayload : bytes -> result TxPayload;
  LoadCallPayload : bytes -> result TxPayload;
  LoadCandidatePayload : bytes -> result TxPayload;
  LoadDelegatePayload : bytes -> result TxPayload;
  (* the system error, if any, that opening a batch on this block meets *)
  batchFault : Block -> option Error
}.

(** Modelled from the spec: the recognised type tags. *)
Definition TxPayloadBinaryType : string := "binary".
Definition TxPayloadDeployType : string := "deploy".
Definition TxPayloadCallType : string := "call".
Definition TxPayloadCandidateType : string := "candidate".
Definition TxPayloadDelegateType : string := "delegate".

(** Modelled from the spec: [BeginBatch], [Commit] and [RollBack] of the
    payload context ([core/payload_context.go] is not among the sources).
    A batch is a set of account-state changes that commit or roll back as
    one: [BeginBatch] saves the account state unless the store fails,
    [RollBack] puts the saved state back, [Commit] keeps the current one. *)
Definition BeginBatch `{PayloadEnv} (block : Block) : option Error * Block :=
  match batchFault block with
  | Some err => (Some err, block)
  | None =>
    (None, mkBlock (accState block) (coinbase block) (events block)
             (Some (accState block)) (batchCalls block ++ [CallBeginBatch]))
  end.

Definition Commit (block : Block) : Block :=
  mkBlock (accState block) (coinbase block) (events block)
    None (batchCalls block ++ [CallCommit]).

Definition RollBack (block : Block) : Block :=
  mkBlock (default (accState block) (batch block)) (coinbase block) (events block)
    None (batchCalls block ++ [CallRollBack]).

(** [PayloadGasLimit] returns payload gasLimit. *)
Definition PayloadGasLimit `{PayloadEnv} (tx : Transaction) (payload : TxPayload)
  : util.Uint128 :=
  (* payloadGasLimit = tx.gasLimit - tx.GasCountOfTxBase *)
  let payloadGasLimit := tx_gasLimit tx - GasCountOfTxBase tx in
  let payloadGasLimit := payloadGasLimit - BaseGasCount payload in
  util.NewUint128FromBigInt payloadGasLimit.

(** [LoadPayload] returns tx's payload. *)
Definition LoadPayload `{PayloadEnv} (tx : Transaction) : result TxPayload :=
  let ty := corepb.Type_ (tx_data tx) in
  let payload := corepb.Payload (tx_data tx) in
  if String.eqb ty TxPayloadBinaryType then LoadBinaryPayload payload
  else if String.eqb ty TxPayloadDeployType then LoadDeployPayload payload
  else if String.eqb ty TxPayloadCallType then LoadCallPayload payload
  else if String.eqb ty TxPayloadCandidateType then LoadCandidatePayload payload
  else if String.eqb ty TxPayloadDelegateType then LoadDelegatePayload payload
  else Err ErrInvalidTxPayloadType.

(** ** Execution *)

Definition gasConsumption (tx : Transaction) (from coinbase : Account)
  (gas : util.Uint128) (st : AccountState) : AccountState :=
  let gasCost := GasPrice tx * gas in
  let st := SubBalance from (util.NewUint128FromBigInt gasCost) st in
  AddBalance coinbase (util.NewUint128FromBigInt gasCost) st.

Definition triggerEvent (tx : Transaction) (topic : string) (block : Block)
  (err : option Error) : Block :=
  let pbTx := match ToProto tx with Ok m => Some m | Err _ => None end in
  let txData :=
    match err with
    | Some err => TxErrJSON pbTx err
    | None => TxJSON pbTx
    end in
  let event := mkEvent topic txData in
  recordEvent (tx_hash tx) event block.

(** [VerifyExecution] transaction and return result: the returned gas and
    error, and the block as the call leaves it. *)
Definition VerifyExecution `{PayloadEnv} (tx : Transaction) (block : Block)
  : (util.Uint128 * option Error) * Block :=
  (* check balance. *)
  let fromAcc := GetOrCreateUserAccount (address (tx_from tx)) in
  let toAcc := GetOrCreateUserAccount (address (tx_to tx)) in
  let coinbaseAcc := GetOrCreateUserAccount (CoinbaseHash block) in
  (* balance < gasLimit*gasPric *)
  if Balance fromAcc (accState block) <? MinBalanceRequired tx then
    ((util.NewUint128, Some ErrInsufficientBalance), block)
  else
  (* gasLimit < gasUsed *)
  let gasUsed := GasCountOfTxBase tx in
  if tx_gasLimit tx <? gasUsed then
    ((util.NewUint128, Some ErrOutOfGasLimit), block)
  else
  match LoadPayload tx with
  | Err err =>
    let block :=
      set_accState (gasConsumption tx fromAcc coinbaseAcc gasUsed (accState block)) block in
    let block := triggerEvent tx TopicExecuteTxFailed block (Some err) in
    ((gasUsed, None), block)
  | Ok payload =>
    (* the context points to the block: it is formed from the block as it
       stands when the payload runs *)
    match BeginBatch block with
    | (Some err, block) => ((util.NewUint128, Some err), block)
    | (None as err, block) =>
      let gasUsed := gasUsed + BaseGasCount payload in
      if tx_gasLimit tx <? gasUsed then
        let block :=
          set_accState
            (gasConsumption tx fromAcc coinbaseAcc (tx_gasLimit tx) (accState block))
            block in
        (* [err] is still what BeginBatch returned *)
        let block := triggerEvent tx TopicExecuteTxFailed block err in
        ((tx_gasLimit tx, None), block)
      else
        (* execute smart contract and sub the calcute gas. *)
        let '((gasExecution, err), st) := Execute payload (NewPayloadContext block tx) in
        let block := set_accState st block in
        let block :=
          match err with
          | Some _ => RollBack block
          | None => Commit block
          end in
        (* gas = tx.GasCountOfTxBase() +  gasExecution *)
        let gas := util.NewUint128FromBigInt (gasUsed + gasExecution) in
        let block :=
          set_accState (gasConsumption tx fromAcc coinbaseAcc gas (accState block))
            block in
        match err with
        | Some err =>
          ((gas, None), triggerEvent tx TopicExecuteTxFailed block (Some err))
        | None =>
          if Balance fromAcc (accState block) <? tx_value tx then
            ((gas, None),
             triggerEvent tx TopicExecuteTxFailed block (Some ErrInsufficientBalance))
          else
            (* accept the transaction *)
            let block := set_accState (SubBalance fromAcc (tx_value tx) (accState block)) block in
            let block := set_accState (AddBalance toAcc (tx_value tx) (accState block)) block in
            (* record tx execution success event *)
            ((gas, None), triggerEvent tx TopicExecuteTxSuccess block None)
        end
    end
  end.

(** ** Where an execution stands *)

(** The block right after a batch has been opened on it. *)
Definition batchOpened (block : Block) : Block :=
  mkBlock (accState block) (coinbase block) (events block)
    (Some (accState block)) (batchCalls block ++ [CallBeginBatch]).

(** The two pre-flight checks pass. *)
Definition passesPreflight (tx : Transaction) (block : Block) : Prop :=
  MinBalanceRequired tx <= Balance (address (tx_from tx)) (accState block) /\
  GasCountOfTxBase tx <= tx_gasLimit tx.

(** The execution gets as far as an open batch with [payload] loaded. *)
Definition opensBatch `{PayloadEnv} (tx : Transaction) (block : Block)
  (payload : TxPayload) : Prop :=
  passesPreflight tx block /\
  LoadPayload tx = Ok payload /\
  batchFault block = None.

(** The execution gets as far as running [payload]. *)
Definition runsPayload `{PayloadEnv} (tx : Transaction) (block : Block)
  (payload : TxPayload) : Prop :=
  opensBatch tx block payload /\
  GasCountOfTxBase tx + BaseGasCount payload <= tx_gasLimit tx.

(** The account state the gas is charged on: what [RollBack] restores when
    the payload failed, what [Commit] keeps when it did not. *)
Definition afterBatch (block : Block) (err : option Error) (st : AccountState)
  : AccountState :=
  match err with
  | Some _ => accState block
  | None => st
  end.

(** The value settlement at the end of [VerifyExecution]: the transfer,
    unless the sender cannot cover the value. *)
Definition settleValue (tx : Transaction) (st : AccountState) : AccountState :=
  if Balance (address (tx_from tx)) st <? tx_value tx then st
  else AddBalance (address (tx_to tx)) (tx_value tx)
         (SubBalance (address (tx_from tx)) (tx_value tx) st).

(** [delta c v]: the amount [v] if [c] holds, nothing otherwise. *)
Definition delta (c : bool) (v : Z) : Z := if c then v else 0.

(** ** Contract addresses *)

(** [NewContractAddressFromHash] ([core/address.go]) is outside this file;
    the development is parametric in it.  [Address.Bytes] returns the
    address bytes. *)
Class AddressEnv : Type := {
  NewContractAddressFromHash : byteutils.Hash -> result Address
}.

Definition Address_Bytes (a : Address) : bytes := address a.

(** [GenerateContractAddress] according to tx.from and tx.nonce. *)
Definition GenerateContractAddress `{HashEnv} `{AddressEnv} (tx : Transaction)
  : result Address :=
  NewContractAddressFromHash
    (Sha3256 [Address_Bytes (tx_from tx); byteutils.FromUint64 (tx_nonce tx)]).

(** ** Quantities the properties speak of *)

(** The sum of all balances of an account state. *)
Definition TotalBalance (st : AccountState) : Z :=
  map_fold (fun _ v acc => v + acc) 0 st.

(** The three slices of a wire transaction that hold amounts all have
    the fixed size. *)
Definition fixedSizeAmounts (m : corepb.Transaction) : bool :=
  Nat.eqb (length (corepb.Value m)) util.Uint128Bytes &&
  Nat.eqb (length (corepb.GasPrice m)) util.Uint128Bytes &&
  Nat.eqb (length (corepb.GasLimit m)) util.Uint128Bytes.

(** A wire transaction with its [Alg] replaced. *)
Definition with_Alg (a : Z) (m : corepb.Transaction) : corepb.Transaction :=
  corepb.mkTransaction (corepb.Hash m) (corepb.From m) (corepb.To m) (corepb.Value m)
    (corepb.Nonce m) (corepb.Timestamp m) (corepb.Data_ m) (corepb.ChainId m)
    (corepb.GasPrice m) (corepb.GasLimit m) a (corepb.Sign m).

(** A wire transaction with one of its amount slices replaced. *)
Definition with_Value (v : bytes) (m : corepb.Transaction) : corepb.Transaction :=
  corepb.mkTransaction (corepb.Hash m) (corepb.From m) (corepb.To m) v
    (corepb.Nonce m) (corepb.Timestamp m) (corepb.Data_ m) (corepb.ChainId m)
    (corepb.GasPrice m) (corepb.GasLimit m) (corepb.Alg m) (corepb.Sign m).
Definition with_GasPrice (v : bytes) (m : corepb.Transaction) : corepb.Transaction :=
  corepb.mkTransaction (corepb.Hash m) (corepb.From m) (corepb.To m) (corepb.Value m)
    (corepb.Nonce m) (corepb.Timestamp m) (corepb.Data_ m) (corepb.ChainId m)
    v (corepb.GasLimit m) (corepb.Alg m) (corepb.Sign m).
Definition with_GasLimit (v : bytes) (m : corepb.Transaction) : corepb.Transaction :=
  corepb.mkTransaction (corepb.Hash m) (corepb.From m) (corepb.To m) (corepb.Value m)
    (corepb.Nonce m) (corepb.Timestamp m) (corepb.Data_ m) (corepb.ChainId m)
    (corepb.GasPrice m) v (corepb.Alg m) (corepb.Sign m).

(** ** Stand-ins for the collaborators, to run the definitions on examples *)

Module Demo.

(** A stand-in digest (the input itself) and a stand-in encoder (the type
    tag followed by the payload bytes). *)
#[export] Instance demoHash : HashEnv := {|
  sha3_256 := fun bs => bs;
  proto_Marshal := fun d =>
    Ok (String.list_byte_of_string (corepb.Type_ d) ++ corepb.Payload d)
|}.

(** A stand-in signature scheme: algorithm 1 only; the signature of a hash
    is the signer's key, and the recovered key is the signature. *)
#[export] Instance demoSig : SigEnv := {|
  Signature := bytes;
  PublicKey := bytes;
  NewSignature := fun alg =>
    if bool_decide (alg = x01) then Ok [] else Err (ErrExternal "invalid algorithm");
  RecoverPublic := fun _ _ sign => Ok sign;
  Encoded := fun pub => Ok pub;
  NewAddressFromPublicKey := fun pub => Ok (mkAddress pub);
  SignHash := fun key _ => Ok key;
  Algorithm := fun _ => x01
|}.

(** Stand-in payloads: a base gas count, and what [Execute] reports and
    credits to the account [0xee]. *)
Record DemoPayload : Type := mkDemoPayload {
  demoBase : Z;
  demoGas : Z;
  demoErr : option Error;
  demoCredit : Z
}.

#[export] Instance demoPayload : PayloadEnv := {|
  TxPayload := DemoPayload;
  BaseGasCount := demoBase;
  Execute := fun p ctx =>
    ((demoGas p, demoErr p),
     AddBalance [xee] (demoCredit p) (accState (ctx_block ctx)));
  LoadBinaryPayload := fun _ => Ok (mkDemoPayload 0 0 None 0);
  LoadDeployPayload := fun _ => Err (ErrExternal "deploy: cannot decode");
  LoadCallPayload := fun bs =>
    Ok (mkDemoPayload 60 (1000 * Z.of_nat (length bs)) None 7);
  LoadCandidatePayload := fun _ => Ok (mkDemoPayload 20000 0 None 0);
  LoadDelegatePayload := fun _ =>
    Ok (mkDemoPayload 20000 500 (Some (ErrExternal "delegate: failed")) 7);
  batchFault := fun block =>
    match batch block with
    | Some _ => Some (ErrExternal "batch: already open")
    | None => None
    end
|}.

(** The payloads the stand-in loaders return. *)
Definition binaryPayload : TxPayload := mkDemoPayload 0 0 None 0.
Definition candidatePayload : TxPayload := mkDemoPayload 20000 0 None 0.
Definition callPayload (bs : bytes) : TxPayload :=
  mkDemoPayload 60 (1000 * Z.of_nat (length bs)) None 7.

Definition alice : Address := mkAddress [x0a].
Definition bob : Address := mkAddress [x0b].
Definition miner : byteutils.Hash := [xc0].

(** A transfer of 100 from alice to bob at gas price 10^6 and gas limit
    20000, with no payload bytes. *)
Definition transfer : Transaction := {|
  tx_hash := [];
  tx_from := alice;
  tx_to := bob;
  tx_value := 100;
  tx_nonce := 1;
  tx_timestamp := 1514764800;
  tx_data := corepb.mkData TxPayloadBinaryType [];
  tx_chainID := 100;
  tx_gasPrice := 10 ^ 6;
  tx_gasLimit := 20000;
  tx_alg := x00;
  tx_sign := []
|}.

(** [transfer] signed by alice. *)
Definition signedTransfer : Transaction := fst (Sign transfer (address alice)).

(** [signedTransfer] with the algorithm byte changed to an unknown one. *)
Definition unknownAlg : Transaction := set_alg x07 signedTransfer.

(** [transfer] with a value one past the 128-bit range. *)
Definition overflowing : Transaction := set_value (2 ^ 128) transfer.

(** [transfer] sent by alice to herself. *)
Definition selfTransfer : Transaction := set_to alice transfer.

(** A candidate registration whose gas limit covers the transaction base
    gas but not the payload's base gas on top of it. *)
Definition candidate : Transaction :=
  set_data (corepb.mkData TxPayloadCandidateType [x01]) (set_gasLimit 20001 transfer).

(** A contract call of three payload bytes with a gas limit that covers
    both base gas counts exactly. *)
Definition call : Transaction :=
  set_data (corepb.mkData TxPayloadCallType [x01; x02; x03])
    (set_gasLimit 20063 transfer).

(** A delegation whose execution fails after 500 gas. *)
Definition delegate : Transaction :=
  set_data (corepb.mkData TxPayloadDelegateType [x01]) (set_gasLimit 50000 transfer).

(** A transaction with a type tag no loader knows. *)
Definition junk : Transaction :=
  set_data (corepb.mkData "junk" []) transfer.

(** A block in which alice holds 10^12 and nobody else anything. *)
Definition genesis : Block := {|
  accState := {[ address alice := 10 ^ 12 ]};
  coinbase := miner;
  events := [];
  batch := None;
  batchCalls := []
|}.

(** [genesis] with a batch left open. *)
Definition midBatch : Block := batchOpened genesis.

(** A block in which alice holds [n]. *)
Definition funded (n : Z) : Block := set_accState {[ address alice := n ]} genesis.

Definition delegatePayload : TxPayload :=
  mkDemoPayload 20000 500 (Some (ErrExternal "delegate: failed")) 7.

(** Alice's signer. *)
Definition aliceKey : Signature := address alice.

(** The wire form of [signedTransfer]. *)
Definition wireTransfer : corepb.Transaction := {|
  corepb.Hash := tx_hash signedTransfer;
  corepb.From := address alice;
  corepb.To := address bob;
  corepb.Value := be_bytes 16 100;
  corepb.Nonce := 1;
  corepb.Timestamp := 1514764800;
  corepb.Data_ := corepb.mkData TxPayloadBinaryType [];
  corepb.ChainId := 100;
  corepb.GasPrice := be_bytes 16 (10 ^ 6);
  corepb.GasLimit := be_bytes 16 20000;
  corepb.Alg := 1;
  corepb.Sign := address alice
|}.

(** A transfer with three bytes of binary payload, as [NewTransaction]
    builds it when no gas price and no gas limit are given. *)
Definition defaulted : Transaction :=
  NewTransaction 100 alice bob 100 1 TxPayloadBinaryType [x01; x02; x03] None None
    1514764800.

(** A stand-in for the contract address derivation: the hash itself. *)
#[export] Instance demoAddress : AddressEnv := {|
  NewContractAddressFromHash := fun h => Ok (mkAddress h)
|}.

(** What the examples look at after a call: the returned pair, the
    balances of alice, bob and the miner, the topics of the recorded events
    with the error each carries, and the calls made on the batch. *)
Definition summary (r : (util.Uint128 * option Error) * Block) :=
  (fst r,
   (Balance (address alice) (accState (snd r)),
    Balance (address bob) (accState (snd r)),
    Balance miner (accState (snd r))),
   map (fun e => (Topic (snd e),
                  match Data_ (snd e) with
                  | TxJSON _ => None
                  | TxErrJSON _ err => Some err
                  end)) (events (snd r)),
   batchCalls (snd r)).

End Demo.


(** * Properties *)

(** The closed examples below run on the stand-ins of [Demo]; the
    theorems are stated in sections over arbitrary collaborators. *)
Import Demo.

(** ** Bytes and the big-endian encoding *)

Lemma Z_of_byte_range (b : byte) : 0 <= Z_of_byte b < 256.
Proof.
  unfold Z_of_byte. pose proof (Byte.to_N_bounded b) as Hb. lia.
Qed.

Lemma Z_of_byte_of_Z (z : Z) : Z_of_byte (byte_of_Z z) = z mod 256.
Proof.
  unfold byte_of_Z, Z_of_byte.
  pose proof (Z.mod_pos_bound z 256 ltac:(lia)) as Hr.
  destruct (Byte.of_N (Z.to_N (z mod 256))) as [b|] eqn:Hof.
  - apply Byte.to_of_N in Hof. rewrite Hof. lia.
  - apply Byte.of_N_None_iff in Hof. lia.
Qed.

Lemma byte_of_Z_of_byte (b : byte) : byte_of_Z (Z_of_byte b) = b.
Proof.
  unfold byte_of_Z. pose proof (Z_of_byte_range b) as Hr.
  rewrite Z.mod_small by exact Hr.
  unfold Z_of_byte. rewrite N2Z.id, Byte.of_to_N. reflexivity.
Qed.

Lemma uint8_uint32_uint8 (b : byte) : uint8_of_uint32 (uint32_of_uint8 b) = b.
Proof.
  unfold uint8_of_uint32, uint32_of_uint8.
  rewrite Z.mod_small by apply Z_of_byte_range.
  apply byte_of_Z_of_byte.
Qed.

Lemma length_be_bytes (n : nat) (z : Z) : length (be_bytes n z) = n.
Proof.
  revert z. induction n as [|n IH]; intros z; simpl.
  - reflexivity.
  - rewrite length_app, IH. simpl. lia.
Qed.

Lemma be_value_snoc (bs : bytes) (b : byte) :
  be_value (bs ++ [b]) = be_value bs * 256 + Z_of_byte b.
Proof. unfold be_value. rewrite fold_left_app. reflexivity. Qed.

Lemma be_value_be_bytes (n : nat) (z : Z) :
  be_value (be_bytes n z) = z mod 256 ^ Z.of_nat n.
Proof.
  revert z. induction n as [|n IH]; intros z.
  - simpl. rewrite Z.mod_1_r. reflexivity.
  - cbn [be_bytes]. rewrite be_value_snoc, IH, Z_of_byte_of_Z.
    rewrite Nat2Z.inj_succ, Z.pow_succ_r by lia.
    rewrite (Z.rem_mul_r z 256 (256 ^ Z.of_nat n)) by lia.
    rewrite Z.mod_mod by lia. ring.
Qed.

(** ** Uint128 and its fixed-size encoding *)

Lemma Validate_None (u : util.Uint128) :
  util.Validate u = None <-> 0 <= u < 2 ^ 128.
Proof.
  unfold util.Validate, util.Uint128Bits.
  destruct (Z.ltb_spec u 0); [split; [discriminate | lia]|].
  destruct (Z.leb_spec (2 ^ 128) u); split; try discriminate; try lia; reflexivity.
Qed.

Lemma ToFixedSizeByteSlice_Ok (u : util.Uint128) (bs : bytes) :
  util.ToFixedSizeByteSlice u = Ok bs <->
  0 <= u < 2 ^ 128 /\ bs = be_bytes 16 u.
Proof.
  unfold util.ToFixedSizeByteSlice, util.Uint128Bytes.
  destruct (util.Validate u) as [e|] eqn:HV.
  - split; [discriminate|]. intros [Hr _]. apply Validate_None in Hr. congruence.
  - apply Validate_None in HV. split.
    + intros [= <-]. auto.
    + intros [_ ->]. reflexivity.
Qed.

Lemma ToFixedSizeByteSlice_Err (u : util.Uint128) :
  ~ (0 <= u < 2 ^ 128) -> exists e, util.ToFixedSizeByteSlice u = Err e.
Proof.
  intros Hr. unfold util.ToFixedSizeByteSlice.
  destruct (util.Validate u) as [e|] eqn:HV; [eauto|].
  apply Validate_None in HV. contradiction.
Qed.

(** Decoding undoes encoding. *)
Lemma Uint128_decode_encode (u : util.Uint128) (bs : bytes) :
  util.ToFixedSizeByteSlice u = Ok bs ->
  util.NewUint128FromFixedSizeByteSlice bs = Ok u.
Proof.
  intros [Hr ->]%ToFixedSizeByteSlice_Ok.
  unfold util.NewUint128FromFixedSizeByteSlice, util.Uint128Bytes.
  rewrite length_be_bytes, be_value_be_bytes. simpl Nat.eqb. cbv iota.
  f_equal. apply Z.mod_small. change (256 ^ Z.of_nat 16) with (2 ^ 128). exact Hr.
Qed.

(** ** Wire conversion *)

(** C10: for a transaction whose value, gasPrice and gasLimit encode to
    fixed-size byte slices without error, [ToProto] succeeds and
    [FromProto] of its result into any receiver returns no error and leaves
    the receiver equal to the transaction in every field: hash, from, to,
    value, nonce, timestamp, data, chainID, gasPrice, gasLimit, alg and
    sign. *)
Theorem FromProto_ToProto (tx fresh : Transaction) (value gasPrice gasLimit : bytes) :
  util.ToFixedSizeByteSlice (tx_value tx) = Ok value ->
  util.ToFixedSizeByteSlice (tx_gasPrice tx) = Ok gasPrice ->
  util.ToFixedSizeByteSlice (tx_gasLimit tx) = Ok gasLimit ->
  exists msg,
    ToProto tx = Ok msg /\
    FromProto fresh msg = (tx, None) /\
    let tx' := fst (FromProto fresh msg) in
    tx_hash tx' = tx_hash tx /\ tx_from tx' = tx_from tx /\ tx_to tx' = tx_to tx /\
    tx_value tx' = tx_value tx /\ tx_nonce tx' = tx_nonce tx /\
    tx_timestamp tx' = tx_timestamp tx /\ tx_data tx' = tx_data tx /\
    tx_chainID tx' = tx_chainID tx /\ tx_gasPrice tx' = tx_gasPrice tx /\
    tx_gasLimit tx' = tx_gasLimit tx /\ tx_alg tx' = tx_alg tx /\
    tx_sign tx' = tx_sign tx.
Proof.
  intros Hv Hp Hl.
  assert (Hfrom : forall msg, ToProto tx = Ok msg -> FromProto fresh msg = (tx, None)).
  { unfold ToProto. rewrite Hv, Hp, Hl. intros msg [= <-].
    unfold FromProto. cbn [corepb.Value corepb.GasPrice corepb.GasLimit].
    rewrite (Uint128_decode_encode _ _ Hv), (Uint128_decode_encode _ _ Hp),
      (Uint128_decode_encode _ _ Hl).
    cbn [corepb.Hash corepb.From corepb.To corepb.Nonce corepb.Timestamp
         corepb.Data_ corepb.ChainId corepb.Alg corepb.Sign].
    rewrite uint8_uint32_uint8.
    destruct tx as [h [f] [t] v n ts d c gp gl a s]. reflexivity. }
  assert (Hto : exists msg, ToProto tx = Ok msg).
  { unfold ToProto. rewrite Hv, Hp, Hl. eauto. }
  destruct Hto as [msg Hmsg]. exists msg.
  split; [exact Hmsg|]. split; [auto|].
  rewrite (Hfrom msg Hmsg). cbn. repeat split; reflexivity.
Qed.

Lemma FromProto_ToProto_witness :
  exists msg,
    ToProto Demo.signedTransfer = Ok msg /\
    FromProto Demo.junk msg = (Demo.signedTransfer, None).
Proof.
  destruct (FromProto_ToProto Demo.signedTransfer Demo.junk
              (be_bytes 16 100) (be_bytes 16 (10 ^ 6)) (be_bytes 16 20000)
              eq_refl eq_refl eq_refl) as [msg [H1 [H2 _]]].
  exists msg. split; assumption.
Defined.

(** ** The canonical hash *)

Section Hashing.
Context `{HashEnv}.

Lemma Sha3256_canonical (tx : Transaction) (data : bytes) :
  Sha3256 [ address (tx_from tx); address (tx_to tx); be_bytes 16 (tx_value tx);
            byteutils.FromUint64 (tx_nonce tx); byteutils.FromInt64 (tx_timestamp tx);
            data; byteutils.FromUint32 (tx_chainID tx);
            be_bytes 16 (tx_gasPrice tx); be_bytes 16 (tx_gasLimit tx) ]
  = canonicalHash tx data.
Proof.
  unfold Sha3256, canonicalHash, byteutils.FromUint64, byteutils.FromInt64,
    byteutils.FromUint32.
  cbn [concat]. rewrite app_nil_r. reflexivity.
Qed.

(** C1 (amended): [HashTransaction] returns a hash exactly when value,
    gasPrice and gasLimit lie in the 128-bit range and the data record
    serializes, and the hash is then the SHA3-256 digest of from ‖ to ‖
    value (16 bytes, big-endian) ‖ nonce (8) ‖ timestamp (8) ‖ serialized
    data ‖ chain id (4) ‖ gasPrice (16) ‖ gasLimit (16), in this order; in
    every other case it returns an error and no hash. *)
Theorem HashTransaction_canonical (tx : Transaction) (h : byteutils.Hash) :
  HashTransaction tx = Ok h <->
  exists data,
    0 <= tx_value tx < 2 ^ 128 /\
    0 <= tx_gasPrice tx < 2 ^ 128 /\
    0 <= tx_gasLimit tx < 2 ^ 128 /\
    proto_Marshal (tx_data tx) = Ok data /\
    h = canonicalHash tx data.
Proof.
  unfold HashTransaction, bind. split.
  - destruct (util.ToFixedSizeByteSlice (tx_value tx)) as [v|] eqn:Hv; [|discriminate].
    destruct (proto_Marshal (tx_data tx)) as [d|] eqn:Hd; [|discriminate].
    destruct (util.ToFixedSizeByteSlice (tx_gasPrice tx)) as [p|] eqn:Hp; [|discriminate].
    destruct (util.ToFixedSizeByteSlice (tx_gasLimit tx)) as [l|] eqn:Hl; [|discriminate].
    apply ToFixedSizeByteSlice_Ok in Hv as [Hv ->].
    apply ToFixedSizeByteSlice_Ok in Hp as [Hp ->].
    apply ToFixedSizeByteSlice_Ok in Hl as [Hl ->].
    intros [= <-]. exists d. rewrite Sha3256_canonical. auto.
  - intros (d & Hv & Hp & Hl & Hd & ->).
    rewrite (proj2 (ToFixedSizeByteSlice_Ok _ _) (conj Hv eq_refl)).
    rewrite Hd.
    rewrite (proj2 (ToFixedSizeByteSlice_Ok _ _) (conj Hp eq_refl)).
    rewrite (proj2 (ToFixedSizeByteSlice_Ok _ _) (conj Hl eq_refl)).
    rewrite Sha3256_canonical. reflexivity.
Qed.

(** An amount outside the 128-bit range makes the hash fail. *)
Lemma HashTransaction_out_of_range (tx : Transaction) :
  ~ (0 <= tx_value tx < 2 ^ 128 /\ 0 <= tx_gasPrice tx < 2 ^ 128 /\
     0 <= tx_gasLimit tx < 2 ^ 128) ->
  exists e, HashTransaction tx = Err e.
Proof.
  intros Hr. unfold HashTransaction, bind.
  destruct (util.ToFixedSizeByteSlice (tx_value tx)) as [v|] eqn:Hv; [|eauto].
  destruct (proto_Marshal (tx_data tx)) as [d|]; [|eauto].
  destruct (util.ToFixedSizeByteSlice (tx_gasPrice tx)) as [p|] eqn:Hp; [|eauto].
  destruct (util.ToFixedSizeByteSlice (tx_gasLimit tx)) as [l|] eqn:Hl; [|eauto].
  apply ToFixedSizeByteSlice_Ok in Hv as [Hv _].
  apply ToFixedSizeByteSlice_Ok in Hp as [Hp _].
  apply ToFixedSizeByteSlice_Ok in Hl as [Hl _].
  exfalso. tauto.
Qed.

End Hashing.

Lemma HashTransaction_canonical_witness :
  HashTransaction Demo.transfer
  = Ok (canonicalHash Demo.transfer (String.list_byte_of_string "binary")).
Proof.
  apply (HashTransaction_canonical Demo.transfer).
  exists (String.list_byte_of_string "binary").
  repeat split; try reflexivity; vm_compute; congruence.
Defined.

(** C1, as stated, at a transaction whose value is 2^128: no hash comes
    back, so none that is the digest of the nine fields. *)
Lemma HashTransaction_overflowing :
  HashTransaction Demo.overflowing = Err ErrUint128Overflow /\
  ~ (exists data,
       HashTransaction Demo.overflowing = Ok (canonicalHash Demo.overflowing data)).
Proof.
  assert (Hc : HashTransaction Demo.overflowing = Err ErrUint128Overflow)
    by (vm_compute; reflexivity).
  split; [exact Hc|]. intros [data Hd]. rewrite Hc in Hd. discriminate.
Qed.

(** ** Base gas *)

(** C8: [GasCountOfTxBase] is [MinGasCountPerTransaction] (20000) plus
    the payload length times [GasCountPerByte] (1) when the payload is not
    empty, and exactly 20000 when it is. *)
Theorem GasCountOfTxBase_spec (tx : Transaction) :
  MinGasCountPerTransaction = 20000 /\ GasCountPerByte = 1 /\
  (0 < DataLen tx ->
   GasCountOfTxBase tx = MinGasCountPerTransaction + DataLen tx * GasCountPerByte) /\
  (DataLen tx = 0 -> GasCountOfTxBase tx = 20000).
Proof.
  unfold GasCountOfTxBase, MinGasCountPerTransaction, GasCountPerByte,
    util.NewUint128, util.NewUint128FromInt.
  repeat split.
  - intros Hpos. apply Z.ltb_lt in Hpos. rewrite Hpos. lia.
  - intros Hz. rewrite Hz. reflexivity.
Qed.

Lemma GasCountOfTxBase_spec_witness :
  GasCountOfTxBase Demo.call = 20003 /\ GasCountOfTxBase Demo.transfer = 20000.
Proof.
  split.
  - rewrite (proj1 (proj2 (proj2 (GasCountOfTxBase_spec Demo.call))));
      [reflexivity | vm_compute; reflexivity].
  - apply (proj2 (proj2 (proj2 (GasCountOfTxBase_spec Demo.transfer)))).
    reflexivity.
Defined.

Lemma GasCountOfTxBase_eq (tx : Transaction) :
  GasCountOfTxBase tx = 20000 + DataLen tx.
Proof.
  unfold GasCountOfTxBase, MinGasCountPerTransaction, GasCountPerByte,
    util.NewUint128, util.NewUint128FromInt, DataLen.
  destruct (Z.ltb_spec 0 (Z.of_nat (length (corepb.Payload (tx_data tx))))); lia.
Qed.

(** ** Integrity *)

Section Integrity.
Context `{HashEnv} `{SigEnv}.

Lemma Address_Equals_true (a b : Address) :
  Address_Equals a b = true <-> address a = address b.
Proof. unfold Address_Equals, byteutils.Equals. apply bool_decide_eq_true. Qed.

Lemma verifySign_recovered (tx : Transaction) :
  verifySign tx =
  match recoveredAddress tx with
  | Err e => Some e
  | Ok addr =>
    if Address_Equals (tx_from tx) addr then None
    else Some ErrInvalidTransactionSigner
  end.
Proof.
  unfold verifySign, recoveredAddress, bind.
  destruct (NewSignature (tx_alg tx)) as [sg|]; [|reflexivity].
  destruct (RecoverPublic sg (tx_hash tx) (tx_sign tx)) as [pub|]; [|reflexivity].
  destruct (Encoded pub) as [pubdata|]; [|reflexivity].
  destruct (NewAddressFromPublicKey pubdata) as [addr|]; [|reflexivity].
  destruct (Address_Equals (tx_from tx) addr); reflexivity.
Qed.

(** C6 (amended): [VerifyIntegrity] runs its checks in order and returns
    the first failure: [ErrInvalidChainID] when the chain ids differ;
    otherwise the hashing error when the hash cannot be recomputed, and
    [ErrInvalidTransactionHash] when the recomputed hash differs from
    [tx.hash]; otherwise the recovery error when no address can be
    recovered from (hash, sign) under [alg], and
    [ErrInvalidTransactionSigner] when the recovered address does not
    byte-equal [tx.from]; otherwise success. *)
Theorem VerifyIntegrity_first_failure (tx : Transaction) (chainID : Z) :
  (tx_chainID tx <> chainID ->
   VerifyIntegrity tx chainID = Some ErrInvalidChainID) /\
  (tx_chainID tx = chainID ->
   (forall e, HashTransaction tx = Err e -> VerifyIntegrity tx chainID = Some e) /\
   (forall h, HashTransaction tx = Ok h -> h <> tx_hash tx ->
      VerifyIntegrity tx chainID = Some ErrInvalidTransactionHash) /\
   (HashTransaction tx = Ok (tx_hash tx) ->
      (forall e, recoveredAddress tx = Err e -> VerifyIntegrity tx chainID = Some e) /\
      (forall addr, recoveredAddress tx = Ok addr ->
         address addr <> address (tx_from tx) ->
         VerifyIntegrity tx chainID = Some ErrInvalidTransactionSigner) /\
      (forall addr, recoveredAddress tx = Ok addr ->
         address addr = address (tx_from tx) ->
         VerifyIntegrity tx chainID = None))).
Proof.
  unfold VerifyIntegrity. split.
  - intros Hne. apply Z.eqb_neq in Hne. rewrite Hne. reflexivity.
  - intros Heq. apply Z.eqb_eq in Heq. rewrite Heq. cbn [negb].
    split; [|split].
    + intros e ->. reflexivity.
    + intros h -> Hne. unfold byteutils.Equals.
      rewrite bool_decide_eq_false_2 by exact Hne. reflexivity.
    + intros ->. unfold byteutils.Equals.
      rewrite bool_decide_eq_true_2 by reflexivity. cbn [negb].
      rewrite verifySign_recovered.
      split; [|split].
      * intros e ->. reflexivity.
      * intros addr -> Hne.
        destruct (Address_Equals (tx_from tx) addr) eqn:HE; [|reflexivity].
        apply Address_Equals_true in HE. congruence.
      * intros addr -> Heq'.
        destruct (Address_Equals (tx_from tx) addr) eqn:HE; [reflexivity|].
        apply not_true_iff_false in HE. exfalso. apply HE.
        apply Address_Equals_true. congruence.
Qed.

End Integrity.

Lemma VerifyIntegrity_first_failure_witness :
  VerifyIntegrity signedTransfer 100 = None /\
  VerifyIntegrity signedTransfer 101 = Some ErrInvalidChainID /\
  VerifyIntegrity (set_nonce 2 signedTransfer) 100 = Some ErrInvalidTransactionHash /\
  VerifyIntegrity (set_from bob signedTransfer) 100 = Some ErrInvalidTransactionHash.
Proof.
  split; [|split; [|split]].
  - destruct (VerifyIntegrity_first_failure signedTransfer 100) as [_ Hsame].
    destruct (Hsame eq_refl) as (_ & _ & Hsig).
    destruct (Hsig ltac:(vm_compute; reflexivity)) as (_ & _ & Hok).
    apply (Hok alice); vm_compute; reflexivity.
  - apply (proj1 (VerifyIntegrity_first_failure signedTransfer 101)). vm_compute. congruence.
  - destruct (VerifyIntegrity_first_failure (set_nonce 2 signedTransfer) 100) as [_ Hsame].
    destruct (Hsame eq_refl) as (_ & Hhash & _).
    eapply Hhash; [vm_compute; reflexivity | vm_compute; congruence].
  - destruct (VerifyIntegrity_first_failure (set_from bob signedTransfer) 100) as [_ Hsame].
    destruct (Hsame eq_refl) as (_ & Hhash & _).
    eapply Hhash; [vm_compute; reflexivity | vm_compute; congruence].
Defined.

(** C6, as stated, at two transactions with the right chain id.  The
    first carries its own hash and an algorithm byte no scheme answers to;
    the second has a value outside the 128-bit range.  Either call returns
    an error that is none of the three listed, and not success. *)
Lemma VerifyIntegrity_other_errors :
  (tx_chainID unknownAlg = 100 /\
   HashTransaction unknownAlg = Ok (tx_hash unknownAlg) /\
   VerifyIntegrity unknownAlg 100 = Some (ErrExternal "invalid algorithm")) /\
  (tx_chainID overflowing = 100 /\
   VerifyIntegrity overflowing 100 = Some ErrUint128Overflow).
Proof. repeat split; vm_compute; reflexivity. Qed.

(** ** Balances *)

Lemma Balance_insert (a b : Account) (v : Z) (st : AccountState) :
  Balance a (<[b := v]> st) = if bool_decide (a = b) then v else Balance a st.
Proof.
  unfold Balance. case_bool_decide as Hab.
  - subst. rewrite lookup_insert_eq. reflexivity.
  - rewrite lookup_insert_ne by congruence. reflexivity.
Qed.

Lemma Balance_AddBalance (a b : Account) (v : Z) (st : AccountState) :
  Balance a (AddBalance b v st) = Balance a st + delta (bool_decide (a = b)) v.
Proof.
  unfold AddBalance, delta. rewrite Balance_insert.
  case_bool_decide; subst; lia.
Qed.

Lemma Balance_SubBalance (a b : Account) (v : Z) (st : AccountState) :
  Balance a (SubBalance b v st) = Balance a st - delta (bool_decide (a = b)) v.
Proof.
  unfold SubBalance, delta. rewrite Balance_insert.
  case_bool_decide; subst; lia.
Qed.

Lemma Balance_gasConsumption (a : Account) (tx : Transaction) (from cb : Account)
  (gas : Z) (st : AccountState) :
  Balance a (gasConsumption tx from cb gas st)
  = Balance a st - delta (bool_decide (a = from)) (tx_gasPrice tx * gas)
                 + delta (bool_decide (a = cb)) (tx_gasPrice tx * gas).
Proof.
  unfold gasConsumption, GasPrice, util.NewUint128FromBigInt.
  rewrite Balance_AddBalance, Balance_SubBalance. reflexivity.
Qed.

Lemma delta_true (v : Z) : delta true v = v.
Proof. reflexivity. Qed.

Lemma delta_false (v : Z) : delta false v = 0.
Proof. reflexivity. Qed.

(** ** The paths of [VerifyExecution] *)

Section Execution.
Context `{PayloadEnv}.

Implicit Types (tx : Transaction) (block : Block) (payload : TxPayload).

Lemma passesPreflight_tests tx block :
  passesPreflight tx block ->
  (Balance (address (tx_from tx)) (accState block) <? MinBalanceRequired tx) = false /\
  (tx_gasLimit tx <? GasCountOfTxBase tx) = false.
Proof. intros [H1 H2]. split; apply Z.ltb_ge; assumption. Qed.

Lemma BeginBatch_opened block :
  batchFault block = None -> BeginBatch block = (None, batchOpened block).
Proof. intros Hf. unfold BeginBatch. rewrite Hf. reflexivity. Qed.

Lemma BeginBatch_failed block e :
  batchFault block = Some e -> BeginBatch block = (Some e, block).
Proof. intros Hf. unfold BeginBatch. rewrite Hf. reflexivity. Qed.

(** Step 2: the sender cannot cover gasPrice * gasLimit. *)
Lemma VerifyExecution_insufficient tx block :
  Balance (address (tx_from tx)) (accState block) < MinBalanceRequired tx ->
  VerifyExecution tx block = ((0, Some ErrInsufficientBalance), block).
Proof.
  intros Hlt. unfold VerifyExecution, GetOrCreateUserAccount.
  apply Z.ltb_lt in Hlt. rewrite Hlt. reflexivity.
Qed.

(** Step 3: the gas limit is below the base gas. *)
Lemma VerifyExecution_below_base tx block :
  MinBalanceRequired tx <= Balance (address (tx_from tx)) (accState block) ->
  tx_gasLimit tx < GasCountOfTxBase tx ->
  VerifyExecution tx block = ((0, Some ErrOutOfGasLimit), block).
Proof.
  intros Hge Hlt. unfold VerifyExecution, GetOrCreateUserAccount.
  apply Z.ltb_ge in Hge. apply Z.ltb_lt in Hlt. rewrite Hge, Hlt. reflexivity.
Qed.

(** Step 4: the payload does not decode. *)
Lemma VerifyExecution_load_failed tx block e :
  passesPreflight tx block ->
  LoadPayload tx = Err e ->
  VerifyExecution tx block =
  ((GasCountOfTxBase tx, None),
   triggerEvent tx TopicExecuteTxFailed
     (set_accState
        (gasConsumption tx (address (tx_from tx)) (coinbase block)
           (GasCountOfTxBase tx) (accState block)) block)
     (Some e)).
Proof.
  intros [H1 H2]%passesPreflight_tests Hload.
  unfold VerifyExecution, GetOrCreateUserAccount, CoinbaseHash.
  rewrite H1, H2, Hload. reflexivity.
Qed.

(** Step 5: the batch does not open. *)
Lemma VerifyExecution_batch_failed tx block payload e :
  passesPreflight tx block ->
  LoadPayload tx = Ok payload ->
  batchFault block = Some e ->
  VerifyExecution tx block = ((0, Some e), block).
Proof.
  intros [H1 H2]%passesPreflight_tests Hload Hf.
  unfold VerifyExecution, GetOrCreateUserAccount, CoinbaseHash.
  rewrite H1, H2, Hload, (BeginBatch_failed _ _ Hf). reflexivity.
Qed.

(** Step 6: the gas limit does not cover the payload's base gas. *)
Lemma VerifyExecution_payload_base tx block payload :
  opensBatch tx block payload ->
  tx_gasLimit tx < GasCountOfTxBase tx + BaseGasCount payload ->
  VerifyExecution tx block =
  ((tx_gasLimit tx, None),
   triggerEvent tx TopicExecuteTxFailed
     (set_accState
        (gasConsumption tx (address (tx_from tx)) (coinbase block)
           (tx_gasLimit tx) (accState block)) (batchOpened block))
     None).
Proof.
  intros ([H1 H2]%passesPreflight_tests & Hload & Hf) Hlt.
  unfold VerifyExecution, GetOrCreateUserAccount, CoinbaseHash.
  rewrite H1, H2, Hload, (BeginBatch_opened _ Hf).
  apply Z.ltb_lt in Hlt. rewrite Hlt. reflexivity.
Qed.

(** Steps 7 to 10: the payload runs. *)
Lemma VerifyExecution_executed tx block payload gasExecution err st :
  runsPayload tx block payload ->
  Execute payload (NewPayloadContext (batchOpened block) tx) = ((gasExecution, err), st) ->
  let gas := GasCountOfTxBase tx + BaseGasCount payload + gasExecution in
  let closed :=
    match err with
    | Some _ => RollBack (set_accState st (batchOpened block))
    | None => Commit (set_accState st (batchOpened block))
    end in
  let charged :=
    set_accState
      (gasConsumption tx (address (tx_from tx)) (coinbase block) gas (accState closed))
      closed in
  VerifyExecution tx block =
  ((gas, None),
   match err with
   | Some e => triggerEvent tx TopicExecuteTxFailed charged (Some e)
   | None =>
     if Balance (address (tx_from tx)) (accState charged) <? tx_value tx
     then triggerEvent tx TopicExecuteTxFailed charged (Some ErrInsufficientBalance)
     else triggerEvent tx TopicExecuteTxSuccess
            (set_accState (settleValue tx (accState charged)) charged) None
   end).
Proof.
  intros (([H1 H2]%passesPreflight_tests & Hload & Hf) & Hge) Hexec.
  unfold VerifyExecution, GetOrCreateUserAccount, CoinbaseHash.
  rewrite H1, H2, Hload, (BeginBatch_opened _ Hf).
  apply Z.ltb_ge in Hge. rewrite Hge.
  cbn [coinbase batchOpened] in *. rewrite Hexec.
  unfold util.NewUint128FromBigInt.
  destruct err as [e|]; cbn [coinbase RollBack Commit set_accState accState].
  - reflexivity.
  - unfold settleValue.
    destruct (_ <? tx_value tx) eqn:Hv; cbn [accState set_accState];
      rewrite ?Hv; reflexivity.
Qed.

End Execution.

(** ** What the block looks like after a call *)

Lemma events_triggerEvent (tx : Transaction) (topic : string) (block : Block)
  (err : option Error) :
  exists data,
    events (triggerEvent tx topic block err)
    = events block ++ [(tx_hash tx, mkEvent topic data)] /\
    match err with
    | Some e => exists pbTx, data = TxErrJSON pbTx e
    | None => exists pbTx, data = TxJSON pbTx
    end.
Proof.
  unfold triggerEvent, recordEvent. cbn [events].
  destruct err as [e|]; eexists; split; try reflexivity; eexists; reflexivity.
Qed.

Lemma accState_triggerEvent (tx : Transaction) (topic : string) (block : Block)
  (err : option Error) :
  accState (triggerEvent tx topic block err) = accState block.
Proof. reflexivity. Qed.

Lemma batchCalls_triggerEvent (tx : Transaction) (topic : string) (block : Block)
  (err : option Error) :
  batchCalls (triggerEvent tx topic block err) = batchCalls block /\
  batch (triggerEvent tx topic block err) = batch block.
Proof. split; reflexivity. Qed.

Section ExecutionClaims.
Context `{PayloadEnv}.

Implicit Types (tx : Transaction) (block : Block) (payload : TxPayload).

(** C2: when the sender's balance is below gasPrice * gasLimit, or
    otherwise the gas limit is below the transaction's base gas,
    [VerifyExecution] returns zero gas with [ErrInsufficientBalance],
    respectively [ErrOutOfGasLimit], and leaves the block as it was: no
    balance is changed and no event is recorded. *)
Theorem VerifyExecution_preflight tx block :
  let fromBalance := Balance (address (tx_from tx)) (accState block) in
  (fromBalance < tx_gasPrice tx * tx_gasLimit tx ->
   VerifyExecution tx block = ((0, Some ErrInsufficientBalance), block) /\
   accState (snd (VerifyExecution tx block)) = accState block /\
   events (snd (VerifyExecution tx block)) = events block) /\
  (tx_gasPrice tx * tx_gasLimit tx <= fromBalance ->
   tx_gasLimit tx < GasCountOfTxBase tx ->
   VerifyExecution tx block = ((0, Some ErrOutOfGasLimit), block) /\
   accState (snd (VerifyExecution tx block)) = accState block /\
   events (snd (VerifyExecution tx block)) = events block).
Proof.
  cbv zeta. split.
  - intros Hlt. rewrite VerifyExecution_insufficient by exact Hlt. auto.
  - intros Hge Hlt. rewrite VerifyExecution_below_base by assumption. auto.
Qed.

(** Every call that returns an error leaves the block as it was. *)
Lemma VerifyExecution_error_pure tx block gas e block' :
  VerifyExecution tx block = ((gas, Some e), block') -> gas = 0 /\ block' = block.
Proof.
  unfold VerifyExecution, BeginBatch.
  repeat match goal with
  | |- context [if ?c then _ else _] => destruct c
  | |- context [match LoadPayload ?t with _ => _ end] => destruct (LoadPayload t)
  | |- context [match batchFault ?b with _ => _ end] => destruct (batchFault b)
  | |- context [Execute ?p ?c] => destruct (Execute p c) as [[? [?|]] ?]
  end; intros [= <- <- <-] || intros [=]; auto.
Qed.

(** C3 (amended): on the successful value-settlement branch, with [gas]
    the returned gas and measured against the account state the payload
    left, every account's balance changes by the sum of what its roles
    bring: minus (value + gasPrice * gas) as sender, plus value as
    receiver, plus gasPrice * gas as coinbase.  When sender, receiver and
    coinbase are three different addresses, the sender's balance falls by
    exactly value + gasPrice * gas, the receiver's rises by exactly value,
    the coinbase's rises by exactly gasPrice * gas, and the changes of
    sender and receiver add up to minus gasPrice * gas. *)
Theorem VerifyExecution_settlement tx block payload gasExecution st :
  let from := address (tx_from tx) in
  let to := address (tx_to tx) in
  let cb := coinbase block in
  let gas := GasCountOfTxBase tx + BaseGasCount payload + gasExecution in
  let cost := tx_gasPrice tx * gas in
  runsPayload tx block payload ->
  Execute payload (NewPayloadContext (batchOpened block) tx) = ((gasExecution, None), st) ->
  tx_value tx <= Balance from (gasConsumption tx from cb gas st) ->
  let after := accState (snd (VerifyExecution tx block)) in
  fst (VerifyExecution tx block) = (gas, None) /\
  (forall a,
     Balance a after
     = Balance a st - delta (bool_decide (a = from)) (tx_value tx + cost)
                    + delta (bool_decide (a = to)) (tx_value tx)
                    + delta (bool_decide (a = cb)) cost) /\
  (from <> to -> from <> cb -> to <> cb ->
   Balance from after = Balance from st - (tx_value tx + cost) /\
   Balance to after = Balance to st + tx_value tx /\
   Balance cb after = Balance cb st + cost /\
   (Balance from after - Balance from st) + (Balance to after - Balance to st) = - cost).
Proof.
  intros from to cb gas cost Hruns Hexec Hvalue after.
  assert (Hbal : forall a,
     Balance a after
     = Balance a st - delta (bool_decide (a = from)) (tx_value tx + cost)
                    + delta (bool_decide (a = to)) (tx_value tx)
                    + delta (bool_decide (a = cb)) cost).
  { intros a. subst after.
    rewrite (VerifyExecution_executed tx block payload gasExecution None st Hruns Hexec).
    cbn [snd Commit set_accState accState]. fold from cb gas.
    apply Z.ltb_ge in Hvalue. rewrite Hvalue.
    rewrite accState_triggerEvent. cbn [set_accState accState].
    unfold settleValue. fold from to. rewrite Hvalue.
    rewrite Balance_AddBalance, Balance_SubBalance, Balance_gasConsumption.
    fold cost. unfold delta. repeat case_bool_decide; lia. }
  split; [|split].
  - rewrite (VerifyExecution_executed tx block payload gasExecution None st Hruns Hexec).
    reflexivity.
  - exact Hbal.
  - intros Hft Hfc Htc. rewrite !Hbal. unfold delta.
    repeat case_bool_decide; try congruence; lia.
Qed.

(** C4 (amended): once the payload runs, the gas [VerifyExecution]
    returns and charges (gasPrice * gas off the sender, onto the coinbase,
    on the account state the batch closed with) is the transaction base
    gas plus the payload base gas plus the gas the payload reports, with
    no clamp; it stays within the gas limit exactly when the payload
    reports no more than [PayloadGasLimit]. *)
Theorem VerifyExecution_gas tx block payload gasExecution err st :
  let from := address (tx_from tx) in
  let cb := coinbase block in
  let gas := GasCountOfTxBase tx + BaseGasCount payload + gasExecution in
  runsPayload tx block payload ->
  Execute payload (NewPayloadContext (batchOpened block) tx) = ((gasExecution, err), st) ->
  let charged := gasConsumption tx from cb gas (afterBatch block err st) in
  fst (VerifyExecution tx block) = (gas, None) /\
  accState (snd (VerifyExecution tx block))
  = match err with
    | Some _ => charged
    | None => settleValue tx charged
    end /\
  (forall a,
     Balance a charged
     = Balance a (afterBatch block err st)
       - delta (bool_decide (a = from)) (tx_gasPrice tx * gas)
       + delta (bool_decide (a = cb)) (tx_gasPrice tx * gas)) /\
  (gas <= tx_gasLimit tx <-> gasExecution <= PayloadGasLimit tx payload).
Proof.
  intros from cb gas Hruns Hexec charged.
  rewrite (VerifyExecution_executed tx block payload gasExecution err st Hruns Hexec).
  cbn [fst snd]. split; [reflexivity|]. split; [|split].
  - destruct err as [e|];
      cbn [RollBack Commit set_accState accState batchOpened batch default afterBatch
           option_rect] in *.
    + reflexivity.
    + fold from cb gas. subst charged. cbn [afterBatch].
      destruct (Balance from (gasConsumption tx from cb gas st) <? tx_value tx) eqn:Hv;
        rewrite accState_triggerEvent; cbn [set_accState accState].
      * unfold settleValue. fold from. rewrite Hv. reflexivity.
      * reflexivity.
  - intros a. subst charged. apply Balance_gasConsumption.
  - subst gas. unfold PayloadGasLimit, util.NewUint128FromBigInt. lia.
Qed.

(** Step 6 in full: the charge, the event and the batch. *)
Lemma VerifyExecution_payload_base_outcome tx block payload :
  opensBatch tx block payload ->
  tx_gasLimit tx < GasCountOfTxBase tx + BaseGasCount payload ->
  fst (VerifyExecution tx block) = (tx_gasLimit tx, None) /\
  accState (snd (VerifyExecution tx block))
  = gasConsumption tx (address (tx_from tx)) (coinbase block) (tx_gasLimit tx)
      (accState block) /\
  (exists pbTx,
     events (snd (VerifyExecution tx block))
     = events block ++ [(tx_hash tx, mkEvent TopicExecuteTxFailed (TxJSON pbTx))]) /\
  batch (snd (VerifyExecution tx block)) = Some (accState block) /\
  batchCalls (snd (VerifyExecution tx block)) = batchCalls block ++ [CallBeginBatch].
Proof.
  intros Hopen Hlt.
  rewrite (VerifyExecution_payload_base tx block payload Hopen Hlt).
  cbn [fst snd]. repeat split.
  destruct (events_triggerEvent tx TopicExecuteTxFailed
              (set_accState
                 (gasConsumption tx (address (tx_from tx)) (coinbase block)
                    (tx_gasLimit tx) (accState block)) (batchOpened block)) None)
    as (data & Hev & pbTx & ->).
  exists pbTx. exact Hev.
Qed.

(** Steps 7 to 10: the batch is closed once, by [RollBack] when the
    payload failed and by [Commit] when it did not. *)
Lemma VerifyExecution_executed_batch tx block payload gasExecution err st :
  runsPayload tx block payload ->
  Execute payload (NewPayloadContext (batchOpened block) tx) = ((gasExecution, err), st) ->
  batch (snd (VerifyExecution tx block)) = None /\
  batchCalls (snd (VerifyExecution tx block))
  = batchCalls block ++
    [CallBeginBatch; match err with Some _ => CallRollBack | None => CallCommit end].
Proof.
  intros Hruns Hexec.
  rewrite (VerifyExecution_executed tx block payload gasExecution err st Hruns Hexec).
  cbn [snd]. destruct err as [e|].
  - cbn. rewrite <- app_assoc. auto.
  - destruct (_ <? tx_value tx); cbn; rewrite <- app_assoc; auto.
Qed.

(** C9 (amended): a call records no event exactly when it returns an
    error, which is the case for the two pre-flight rejections and for a
    batch that fails to open; every other call records exactly one event,
    under the transaction's hash, whose topic is either
    [TopicExecuteTxSuccess] or [TopicExecuteTxFailed]. *)
Theorem VerifyExecution_events tx block :
  let r := VerifyExecution tx block in
  match snd (fst r) with
  | Some _ => events (snd r) = events block
  | None =>
    exists topic data,
      events (snd r) = events block ++ [(tx_hash tx, mkEvent topic data)] /\
      (topic = TopicExecuteTxSuccess \/ topic = TopicExecuteTxFailed)
  end /\
  (snd (fst r) <> None <->
   ~ passesPreflight tx block \/
   exists payload e, LoadPayload tx = Ok payload /\ batchFault block = Some e).
Proof.
  cbv zeta.
  destruct (Z.lt_ge_cases (Balance (address (tx_from tx)) (accState block))
              (MinBalanceRequired tx)) as [Hlt|Hge].
  { rewrite VerifyExecution_insufficient by exact Hlt. cbn [fst snd].
    split; [reflexivity|]. split; [|discriminate].
    intros _. left. intros [Hp _]. lia. }
  destruct (Z.lt_ge_cases (tx_gasLimit tx) (GasCountOfTxBase tx)) as [Hlt|Hge'].
  { rewrite VerifyExecution_below_base by assumption. cbn [fst snd].
    split; [reflexivity|]. split; [|discriminate].
    intros _. left. intros [_ Hp]. lia. }
  assert (Hpre : passesPreflight tx block) by (split; assumption).
  destruct (LoadPayload tx) as [payload|e] eqn:Hload.
  2:{ rewrite (VerifyExecution_load_failed tx block e Hpre Hload). cbn [fst snd].
      split.
      - destruct (events_triggerEvent tx TopicExecuteTxFailed
                    (set_accState
                       (gasConsumption tx (address (tx_from tx)) (coinbase block)
                          (GasCountOfTxBase tx) (accState block)) block) (Some e))
          as (data & Hev & _).
        exists TopicExecuteTxFailed, data. split; [exact Hev | right; reflexivity].
      - split; [congruence|]. intros [Hn | (p & e' & Hp & _)]; [tauto | discriminate]. }
  destruct (batchFault block) as [e|] eqn:Hf.
  { rewrite (VerifyExecution_batch_failed tx block payload e Hpre Hload Hf). cbn [fst snd].
    split; [reflexivity|]. split; [|discriminate]. intros _. right. eauto. }
  assert (Hopen : opensBatch tx block payload) by (repeat split; assumption || apply Hpre).
  destruct (Z.lt_ge_cases (tx_gasLimit tx) (GasCountOfTxBase tx + BaseGasCount payload))
    as [Hlt|Hge''].
  { destruct (VerifyExecution_payload_base_outcome tx block payload Hopen Hlt)
      as (Hr & _ & (pbTx & Hev) & _).
    rewrite Hr. cbn [snd]. split.
    - exists TopicExecuteTxFailed, (TxJSON pbTx). split; [exact Hev | right; reflexivity].
    - split; [congruence|].
      intros [Hn | (p & e' & _ & Hp)]; [tauto | congruence]. }
  assert (Hruns : runsPayload tx block payload) by (split; assumption).
  destruct (Execute payload (NewPayloadContext (batchOpened block) tx))
    as [[gasExecution err] st] eqn:Hexec.
  rewrite (VerifyExecution_executed tx block payload gasExecution err st Hruns Hexec).
  cbn [fst snd].
  split; [|split; [congruence | intros [Hn | (p & e' & _ & Hp)]; [tauto | congruence]]].
  destruct err as [e|]; [|destruct (_ <? tx_value tx)].
  - match goal with |- context [triggerEvent ?t ?tp ?b ?e] =>
      destruct (events_triggerEvent t tp b e) as (data & Hev & _) end.
    exists TopicExecuteTxFailed, data. split; [exact Hev | right; reflexivity].
  - match goal with |- context [triggerEvent ?t ?tp ?b ?e] =>
      destruct (events_triggerEvent t tp b e) as (data & Hev & _) end.
    exists TopicExecuteTxFailed, data. split; [exact Hev | right; reflexivity].
  - match goal with |- context [triggerEvent ?t ?tp ?b ?e] =>
      destruct (events_triggerEvent t tp b e) as (data & Hev & _) end.
    exists TopicExecuteTxSuccess, data. split; [exact Hev | left; reflexivity].
Qed.

End ExecutionClaims.

(** ** The claims on concrete runs *)

Lemma VerifyExecution_preflight_witness :
  VerifyExecution transfer (funded 10)
  = ((0, Some ErrInsufficientBalance), funded 10) /\
  VerifyExecution (set_gasLimit 100 transfer) genesis
  = ((0, Some ErrOutOfGasLimit), genesis).
Proof.
  split.
  - destruct (VerifyExecution_preflight transfer (funded 10)) as [Hlow _].
    apply Hlow. vm_compute. reflexivity.
  - destruct (VerifyExecution_preflight (set_gasLimit 100 transfer) genesis) as [_ Hbase].
    apply Hbase; vm_compute; congruence.
Defined.

Lemma VerifyExecution_transfer_result :
  fst (VerifyExecution transfer genesis) = (20000, None).
Proof. vm_compute. reflexivity. Qed.

Lemma runsPayload_transfer :
  runsPayload transfer genesis binaryPayload.
Proof. repeat split; vm_compute; congruence. Qed.

(** The simple transfer of the specification (scenario S1), through the
    settlement theorem. *)
Lemma VerifyExecution_settlement_witness :
  let after := accState (snd (VerifyExecution transfer genesis)) in
  fst (VerifyExecution transfer genesis) = (20000, None) /\
  Balance (address alice) after = 10 ^ 12 - (100 + 10 ^ 6 * 20000) /\
  Balance (address bob) after = 100 /\
  Balance miner after = 10 ^ 6 * 20000.
Proof.
  destruct (VerifyExecution_settlement transfer genesis binaryPayload 0
              (AddBalance [xee] 0 (accState genesis))
              runsPayload_transfer eq_refl
              ltac:(vm_compute; congruence))
    as (Hgas & _ & Hthree).
  destruct Hthree as (Hfrom & Hto & Hcb & _); try (vm_compute; congruence).
  cbv zeta. split; [exact Hgas|]. split; [|split].
  - eapply eq_trans; [exact Hfrom | vm_compute; reflexivity].
  - eapply eq_trans; [exact Hto | vm_compute; reflexivity].
  - eapply eq_trans; [exact Hcb | vm_compute; reflexivity].
Defined.

(** C3, as stated, at a transfer alice sends to herself: the success
    branch is reached (the one event is [TopicExecuteTxSuccess]) and 20000
    gas is returned, yet her balance falls by gasPrice * gas only, not by
    value + gasPrice * gas, and as the receiver she gains nothing. *)
Lemma VerifyExecution_settlement_selfTransfer :
  let r := VerifyExecution selfTransfer genesis in
  let from := address (tx_from selfTransfer) in
  let to := address (tx_to selfTransfer) in
  fst r = (20000, None) /\
  map (fun e => Topic (snd e)) (events (snd r)) = [TopicExecuteTxSuccess] /\
  Balance from (accState (snd r))
  <> Balance from (accState genesis)
     - (tx_value selfTransfer + tx_gasPrice selfTransfer * 20000) /\
  Balance to (accState (snd r))
  <> Balance to (accState genesis) + tx_value selfTransfer /\
  Balance from (accState (snd r))
  = Balance from (accState genesis) - tx_gasPrice selfTransfer * 20000.
Proof. vm_compute. repeat split; congruence. Qed.

Lemma VerifyExecution_gas_witness :
  fst (VerifyExecution transfer genesis) = (20000, None).
Proof.
  apply (VerifyExecution_gas transfer genesis binaryPayload 0 None
           (AddBalance [xee] 0 (accState genesis)) runsPayload_transfer eq_refl).
Defined.

(** C4, as stated, at a call whose payload reports 3000 gas under a gas
    limit of 20063 that the two base counts already use up: the payload
    runs, and 23063 gas is returned and charged, above the limit. *)
Lemma VerifyExecution_gas_call :
  let r := VerifyExecution call genesis in
  runsPayload call genesis (callPayload (Data call)) /\
  tx_gasLimit call = 20063 /\
  fst r = (23063, None) /\
  tx_gasLimit call < fst (fst r) /\
  Balance miner (accState (snd r)) = tx_gasPrice call * 23063 /\
  Balance (address alice) (accState (snd r))
  = 10 ^ 12 - tx_gasPrice call * 23063 - tx_value call.
Proof. vm_compute. repeat split; congruence. Qed.

(** C5: at a candidate registration whose gas limit (20001) covers the
    base gas (20001) but not the payload's 20000 on top, [VerifyExecution]
    charges gasPrice * gasLimit and returns (gasLimit, nil), and the one
    event it records under [TopicExecuteTxFailed] carries the transaction
    alone: no error, and so not [ErrOutOfGasLimit]. *)
Lemma VerifyExecution_candidate_event :
  let r := VerifyExecution candidate genesis in
  opensBatch candidate genesis candidatePayload /\
  fst r = (tx_gasLimit candidate, None) /\
  Balance (address alice) (accState (snd r))
  = 10 ^ 12 - tx_gasPrice candidate * tx_gasLimit candidate /\
  Balance miner (accState (snd r)) = tx_gasPrice candidate * tx_gasLimit candidate /\
  (exists pbTx,
     events (snd r)
     = [(tx_hash candidate, mkEvent TopicExecuteTxFailed (TxJSON pbTx))]) /\
  (forall pbTx,
     events (snd r)
     <> [(tx_hash candidate,
          mkEvent TopicExecuteTxFailed (TxErrJSON pbTx ErrOutOfGasLimit))]).
Proof.
  assert (Hopen : opensBatch candidate genesis candidatePayload)
    by (repeat split; vm_compute; congruence).
  destruct (VerifyExecution_payload_base_outcome candidate genesis _ Hopen
              ltac:(vm_compute; reflexivity)) as (Hr & Hst & (pbTx & Hev) & _).
  cbv zeta. split; [exact Hopen|]. split; [exact Hr|].
  split; [rewrite Hst; vm_compute; reflexivity|].
  split; [rewrite Hst; vm_compute; reflexivity|].
  split.
  - exists pbTx. exact Hev.
  - intros pbTx'. rewrite Hev. cbn. congruence.
Qed.

(** C7: at the same candidate registration the batch is opened and the
    call returns with it still open: [BeginBatch] is the only call made on
    the batch, neither [Commit] nor [RollBack] follows, and the saved
    account state is still held. *)
Lemma VerifyExecution_candidate_batch :
  let r := VerifyExecution candidate genesis in
  fst r = (tx_gasLimit candidate, None) /\
  batchCalls (snd r) = [CallBeginBatch] /\
  batch (snd r) = Some (accState genesis).
Proof.
  destruct (VerifyExecution_payload_base_outcome candidate genesis
              candidatePayload
              ltac:(repeat split; vm_compute; congruence)
              ltac:(vm_compute; reflexivity)) as (Hr & _ & _ & Hb & Hc).
  cbv zeta. auto.
Qed.

Lemma VerifyExecution_events_witness :
  exists topic data,
    events (snd (VerifyExecution transfer genesis))
    = [(tx_hash transfer, mkEvent topic data)] /\
    (topic = TopicExecuteTxSuccess \/ topic = TopicExecuteTxFailed).
Proof.
  pose proof (VerifyExecution_events transfer genesis) as [Hev _].
  cbv zeta in Hev. rewrite VerifyExecution_transfer_result in Hev. exact Hev.
Defined.

(** C9, as stated, at a transfer on a block whose batch is already open:
    both pre-flight checks pass and the payload loads, the batch fails to
    open, and the call returns its error with no event recorded. *)
Lemma VerifyExecution_events_midBatch :
  let r := VerifyExecution transfer midBatch in
  passesPreflight transfer midBatch /\
  LoadPayload transfer = Ok binaryPayload /\
  fst r = (0, Some (ErrExternal "batch: already open")) /\
  events (snd r) = events midBatch /\
  events (snd r) = [].
Proof. repeat split; vm_compute; congruence. Qed.

(** ** The scenarios of the specification *)

(** S4: a type tag no loader knows.  The base gas is charged and the
    failure event carries the decode error. *)
Example scenario_junk :
  summary (VerifyExecution junk genesis)
  = ((20000, None),
     (10 ^ 12 - 20000 * 10 ^ 6, 0, 20000 * 10 ^ 6),
     [(TopicExecuteTxFailed, Some ErrInvalidTxPayloadType)],
     []).
Proof. vm_compute. reflexivity. Qed.

(** S5: the payload fails after 500 gas.  The batch is rolled back, the
    gas 20001 + 20000 + 500 is charged and the failure event carries the
    payload's error. *)
Example scenario_delegate :
  summary (VerifyExecution delegate genesis)
  = ((40501, None),
     (10 ^ 12 - 40501 * 10 ^ 6, 0, 40501 * 10 ^ 6),
     [(TopicExecuteTxFailed, Some (ErrExternal "delegate: failed"))],
     [CallBeginBatch; CallRollBack]) /\
  Balance [xee] (accState (snd (VerifyExecution delegate genesis))) = 0.
Proof. vm_compute. split; reflexivity. Qed.

(** S6: the sender covers the gas but not the value on top of it.  The
    gas is charged and the transfer is skipped. *)
Example scenario_value_short :
  summary (VerifyExecution transfer (funded (10 ^ 6 * 20000 + 100 - 1)))
  = ((20000, None),
     (99, 0, 20000 * 10 ^ 6),
     [(TopicExecuteTxFailed, Some ErrInsufficientBalance)],
     [CallBeginBatch; CallCommit]).
Proof. vm_compute. reflexivity. Qed.

(** Signing binds the sender: the signed transfer passes the integrity
    check on its own chain. *)
Example scenario_sign_verify :
  snd (Sign transfer (address alice)) = None /\
  VerifyIntegrity (fst (Sign transfer (address alice))) (tx_chainID transfer) = None.
Proof. vm_compute. split; reflexivity. Qed.

(** * Further properties of the code *)

(** ** The fixed-size encoding, the other way round *)

Lemma be_value_bound (bs : bytes) : 0 <= be_value bs < 256 ^ Z.of_nat (length bs).
Proof.
  induction bs as [|b bs IH] using rev_ind.
  - cbn. lia.
  - rewrite be_value_snoc, length_app. cbn [length].
    replace (Z.of_nat (length bs + 1)) with (Z.succ (Z.of_nat (length bs))) by lia.
    rewrite Z.pow_succ_r by lia.
    pose proof (Z_of_byte_range b). lia.
Qed.

Lemma be_bytes_be_value (bs : bytes) : be_bytes (length bs) (be_value bs) = bs.
Proof.
  induction bs as [|b bs IH] using rev_ind.
  - reflexivity.
  - rewrite length_app. cbn [length]. rewrite Nat.add_1_r. cbn [be_bytes].
    rewrite be_value_snoc. pose proof (Z_of_byte_range b) as Hb.
    replace ((be_value bs * 256 + Z_of_byte b) / 256) with (be_value bs)
      by (apply Z.div_unique with (r := Z_of_byte b); lia).
    replace ((be_value bs * 256 + Z_of_byte b) mod 256) with (Z_of_byte b)
      by (apply Z.mod_unique with (q := be_value bs); lia).
    rewrite IH, byte_of_Z_of_byte. reflexivity.
Qed.

Lemma NewUint128FromFixedSizeByteSlice_Ok (bs : bytes) (u : util.Uint128) :
  util.NewUint128FromFixedSizeByteSlice bs = Ok u <->
  length bs = 16%nat /\ u = be_value bs.
Proof.
  unfold util.NewUint128FromFixedSizeByteSlice, util.Uint128Bytes.
  destruct (Nat.eqb_spec (length bs) 16) as [Hl|Hl]; split.
  - intros [= <-]. auto.
  - intros [_ ->]. reflexivity.
  - discriminate.
  - intros [Hl' _]. contradiction.
Qed.

Lemma NewUint128FromFixedSizeByteSlice_Err (bs : bytes) :
  length bs <> 16%nat ->
  util.NewUint128FromFixedSizeByteSlice bs = Err ErrUint128InvalidBytesSize.
Proof.
  intros Hl. unfold util.NewUint128FromFixedSizeByteSlice, util.Uint128Bytes.
  destruct (Nat.eqb_spec (length bs) 16); [contradiction | reflexivity].
Qed.

(** Encoding undoes decoding. *)
Lemma Uint128_encode_decode (bs : bytes) (u : util.Uint128) :
  util.NewUint128FromFixedSizeByteSlice bs = Ok u ->
  0 <= u < 2 ^ 128 /\ util.ToFixedSizeByteSlice u = Ok bs.
Proof.
  intros [Hl ->]%NewUint128FromFixedSizeByteSlice_Ok.
  pose proof (be_value_bound bs) as Hb. rewrite Hl in Hb.
  change (256 ^ Z.of_nat 16) with (2 ^ 128) in Hb.
  split; [exact Hb|]. apply ToFixedSizeByteSlice_Ok. split; [exact Hb|].
  rewrite <- Hl at 1. symmetry. apply be_bytes_be_value.
Qed.

(** ** [FromProto]: what it accepts and what it leaves behind *)

Lemma fixedSizeAmounts_true (m : corepb.Transaction) :
  fixedSizeAmounts m = true <->
  length (corepb.Value m) = 16%nat /\ length (corepb.GasPrice m) = 16%nat /\
  length (corepb.GasLimit m) = 16%nat.
Proof.
  unfold fixedSizeAmounts, util.Uint128Bytes.
  rewrite !andb_true_iff, !Nat.eqb_eq. tauto.
Qed.

(** X1: [FromProto] returns no error exactly for a transaction message
    whose Value, GasPrice and GasLimit slices are 16 bytes long.  Any other
    transaction message gets the invalid-size error of the decoder, and a
    message of another type gets the conversion error and leaves the
    receiver as it was. *)
Theorem FromProto_accepts (tx : Transaction) (msg : proto_Message) :
  match msg with
  | MsgTransaction m =>
    snd (FromProto tx msg)
    = if fixedSizeAmounts m then None else Some ErrUint128InvalidBytesSize
  | MsgData _ => FromProto tx msg = (tx, Some ErrNotTransactionMessage)
  end.
Proof.
  destruct msg as [m|d]; [|reflexivity].
  unfold FromProto, fixedSizeAmounts, util.NewUint128FromFixedSizeByteSlice.
  destruct (Nat.eqb (length (corepb.Value m)) util.Uint128Bytes); [|reflexivity].
  destruct (Nat.eqb (length (corepb.GasPrice m)) util.Uint128Bytes); [|reflexivity].
  destruct (Nat.eqb (length (corepb.GasLimit m)) util.Uint128Bytes); reflexivity.
Qed.

(** X2: a failed [FromProto] leaves the receiver half updated.  When the
    Value slice has the wrong size, hash, from and to are already those of
    the message and the other nine fields are still the receiver's.  When
    Value decodes and GasPrice (or, after it, GasLimit) has the wrong size,
    value, nonce, timestamp, data and chainID (and gasPrice) have been
    taken over as well, while gasLimit, alg and sign are still the
    receiver's. *)
Theorem FromProto_partial_update (tx : Transaction) (m : corepb.Transaction) :
  let tx' := fst (FromProto tx (MsgTransaction m)) in
  let taken3 :=
    tx_hash tx' = corepb.Hash m /\ tx_from tx' = mkAddress (corepb.From m) /\
    tx_to tx' = mkAddress (corepb.To m) in
  let taken8 :=
    taken3 /\ tx_value tx' = be_value (corepb.Value m) /\
    tx_nonce tx' = corepb.Nonce m /\ tx_timestamp tx' = corepb.Timestamp m /\
    tx_data tx' = corepb.Data_ m /\ tx_chainID tx' = corepb.ChainId m in
  let kept3 :=
    tx_gasLimit tx' = tx_gasLimit tx /\ tx_alg tx' = tx_alg tx /\
    tx_sign tx' = tx_sign tx in
  (length (corepb.Value m) <> 16%nat ->
   taken3 /\ tx_value tx' = tx_value tx /\ tx_nonce tx' = tx_nonce tx /\
   tx_timestamp tx' = tx_timestamp tx /\ tx_data tx' = tx_data tx /\
   tx_chainID tx' = tx_chainID tx /\ tx_gasPrice tx' = tx_gasPrice tx /\ kept3) /\
  (length (corepb.Value m) = 16%nat -> length (corepb.GasPrice m) <> 16%nat ->
   taken8 /\ tx_gasPrice tx' = tx_gasPrice tx /\ kept3) /\
  (length (corepb.Value m) = 16%nat -> length (corepb.GasPrice m) = 16%nat ->
   length (corepb.GasLimit m) <> 16%nat ->
   taken8 /\ tx_gasPrice tx' = be_value (corepb.GasPrice m) /\ kept3).
Proof.
  cbv zeta. unfold FromProto. split; [|split].
  - intros Hv. rewrite (NewUint128FromFixedSizeByteSlice_Err _ Hv).
    cbn. repeat split; reflexivity.
  - intros Hv Hp.
    rewrite (proj2 (NewUint128FromFixedSizeByteSlice_Ok _ _) (conj Hv eq_refl)).
    rewrite (NewUint128FromFixedSizeByteSlice_Err _ Hp).
    cbn. repeat split; reflexivity.
  - intros Hv Hp Hl.
    rewrite (proj2 (NewUint128FromFixedSizeByteSlice_Ok _ _) (conj Hv eq_refl)).
    rewrite (proj2 (NewUint128FromFixedSizeByteSlice_Ok _ _) (conj Hp eq_refl)).
    rewrite (NewUint128FromFixedSizeByteSlice_Err _ Hl).
    cbn. repeat split; reflexivity.
Qed.

Lemma FromProto_partial_update_witness :
  let tx' := fst (FromProto junk (MsgTransaction (with_Value [x64] wireTransfer))) in
  tx_from tx' = alice /\ tx_value tx' = tx_value junk /\ tx_data tx' = tx_data junk.
Proof.
  destruct (FromProto_partial_update junk (with_Value [x64] wireTransfer))
    as [Hshort _].
  destruct Hshort as ((_ & Hfrom & _) & Hvalue & _ & _ & Hdata & _).
  - vm_compute. congruence.
  - cbv zeta. auto.
Defined.

Lemma FromProto_Ok_inv (fresh tx : Transaction) (m : corepb.Transaction) :
  FromProto fresh (MsgTransaction m) = (tx, None) ->
  fixedSizeAmounts m = true /\
  tx = mkTx (corepb.Hash m) (mkAddress (corepb.From m)) (mkAddress (corepb.To m))
         (be_value (corepb.Value m)) (corepb.Nonce m) (corepb.Timestamp m)
         (corepb.Data_ m) (corepb.ChainId m) (be_value (corepb.GasPrice m))
         (be_value (corepb.GasLimit m)) (uint8_of_uint32 (corepb.Alg m))
         (corepb.Sign m).
Proof.
  unfold FromProto.
  destruct (util.NewUint128FromFixedSizeByteSlice (corepb.Value m)) as [v|] eqn:Hv;
    [|discriminate].
  destruct (util.NewUint128FromFixedSizeByteSlice (corepb.GasPrice m)) as [p|] eqn:Hp;
    [|discriminate].
  destruct (util.NewUint128FromFixedSizeByteSlice (corepb.GasLimit m)) as [l|] eqn:Hl;
    [|discriminate].
  apply NewUint128FromFixedSizeByteSlice_Ok in Hv as [Hv ->].
  apply NewUint128FromFixedSizeByteSlice_Ok in Hp as [Hp ->].
  apply NewUint128FromFixedSizeByteSlice_Ok in Hl as [Hl ->].
  intros [= <-]. split; [apply fixedSizeAmounts_true; auto | reflexivity].
Qed.

(** X3: wire to domain to wire.  When [FromProto] accepts a transaction
    message, [ToProto] of the decoded transaction succeeds and gives the
    message back with [Alg] reduced to its low eight bits: the same message
    when [Alg] is below 256, a different one when it is not. *)
Theorem ToProto_FromProto (fresh tx : Transaction) (m : corepb.Transaction) :
  FromProto fresh (MsgTransaction m) = (tx, None) ->
  ToProto tx = Ok (MsgTransaction (with_Alg (corepb.Alg m mod 256) m)) /\
  (0 <= corepb.Alg m < 256 -> ToProto tx = Ok (MsgTransaction m)) /\
  (~ 0 <= corepb.Alg m < 256 -> ToProto tx <> Ok (MsgTransaction m)).
Proof.
  intros Hfrom.
  destruct (FromProto_Ok_inv _ _ _ Hfrom) as [Hfix ->].
  apply fixedSizeAmounts_true in Hfix as (Hv & Hp & Hl).
  assert (Hto : ToProto
            (mkTx (corepb.Hash m) (mkAddress (corepb.From m)) (mkAddress (corepb.To m))
               (be_value (corepb.Value m)) (corepb.Nonce m) (corepb.Timestamp m)
               (corepb.Data_ m) (corepb.ChainId m) (be_value (corepb.GasPrice m))
               (be_value (corepb.GasLimit m)) (uint8_of_uint32 (corepb.Alg m))
               (corepb.Sign m))
          = Ok (MsgTransaction (with_Alg (corepb.Alg m mod 256) m))).
  { unfold ToProto. cbn [tx_value tx_gasPrice tx_gasLimit].
    rewrite (proj2 (Uint128_encode_decode (corepb.Value m) _
               (proj2 (NewUint128FromFixedSizeByteSlice_Ok _ _) (conj Hv eq_refl)))).
    rewrite (proj2 (Uint128_encode_decode (corepb.GasPrice m) _
               (proj2 (NewUint128FromFixedSizeByteSlice_Ok _ _) (conj Hp eq_refl)))).
    rewrite (proj2 (Uint128_encode_decode (corepb.GasLimit m) _
               (proj2 (NewUint128FromFixedSizeByteSlice_Ok _ _) (conj Hl eq_refl)))).
    cbn. unfold with_Alg, uint32_of_uint8, uint8_of_uint32.
    rewrite Z_of_byte_of_Z, Z.mod_mod by lia. reflexivity. }
  split; [exact Hto|]. split.
  - intros Ha. rewrite Hto, Z.mod_small by exact Ha. destruct m; reflexivity.
  - intros Ha. rewrite Hto. intros [= Heq].
    apply (f_equal corepb.Alg) in Heq. cbn in Heq.
    pose proof (Z.mod_pos_bound (corepb.Alg m) 256 ltac:(lia)). lia.
Qed.

Lemma ToProto_FromProto_witness :
  ToProto signedTransfer = Ok (MsgTransaction wireTransfer) /\
  ToProto (fst (FromProto junk (MsgTransaction (with_Alg 257 wireTransfer))))
  = Ok (MsgTransaction wireTransfer).
Proof.
  split.
  - apply (ToProto_FromProto junk signedTransfer wireTransfer);
      vm_compute; [reflexivity | split; congruence].
  - apply (proj1 (ToProto_FromProto junk _ (with_Alg 257 wireTransfer) eq_refl)).
Defined.

(** ** Hashing, signing and the integrity check together *)

Section SignAndVerify.
Context `{HashEnv} `{SigEnv}.

Lemma HashTransaction_Ok_inv (tx : Transaction) (h : byteutils.Hash) :
  HashTransaction tx = Ok h ->
  0 <= tx_value tx < 2 ^ 128 /\ 0 <= tx_gasPrice tx < 2 ^ 128 /\
  0 <= tx_gasLimit tx < 2 ^ 128 /\
  exists data, proto_Marshal (tx_data tx) = Ok data /\ h = canonicalHash tx data.
Proof.
  unfold HashTransaction, bind.
  destruct (util.ToFixedSizeByteSlice (tx_value tx)) as [v|] eqn:Hv; [|discriminate].
  destruct (proto_Marshal (tx_data tx)) as [d|] eqn:Hd; [|discriminate].
  destruct (util.ToFixedSizeByteSlice (tx_gasPrice tx)) as [p|] eqn:Hp; [|discriminate].
  destruct (util.ToFixedSizeByteSlice (tx_gasLimit tx)) as [l|] eqn:Hl; [|discriminate].
  apply ToFixedSizeByteSlice_Ok in Hv as [Hv ->].
  apply ToFixedSizeByteSlice_Ok in Hp as [Hp ->].
  apply ToFixedSizeByteSlice_Ok in Hl as [Hl ->].
  intros [= <-]. rewrite Sha3256_canonical. eauto 10.
Qed.

Lemma HashTransaction_ignores_signature (tx : Transaction) (h s : byteutils.Hash)
  (a : byte) :
  HashTransaction (set_sign s (set_alg a (set_hash h tx))) = HashTransaction tx.
Proof. reflexivity. Qed.

(** X4: [HashTransaction] sees the sender and the receiver only through
    the bytes of the one followed by the bytes of the other: two
    transactions that agree on that concatenation and on value, nonce,
    timestamp, data, chain id, gas price and gas limit have the same hash
    result, wherever the boundary between from and to lies (and whatever
    their hash, alg and sign fields hold). *)
Theorem HashTransaction_from_to_boundary (tx1 tx2 : Transaction) :
  address (tx_from tx1) ++ address (tx_to tx1)
  = address (tx_from tx2) ++ address (tx_to tx2) ->
  tx_value tx1 = tx_value tx2 -> tx_nonce tx1 = tx_nonce tx2 ->
  tx_timestamp tx1 = tx_timestamp tx2 -> tx_data tx1 = tx_data tx2 ->
  tx_chainID tx1 = tx_chainID tx2 -> tx_gasPrice tx1 = tx_gasPrice tx2 ->
  tx_gasLimit tx1 = tx_gasLimit tx2 ->
  HashTransaction tx1 = HashTransaction tx2.
Proof.
  intros Hft Hv Hn Ht Hd Hc Hp Hl.
  unfold HashTransaction, bind, Sha3256. rewrite Hv, Hn, Ht, Hd, Hc, Hp, Hl.
  destruct (util.ToFixedSizeByteSlice (tx_value tx2)); [|reflexivity].
  destruct (proto_Marshal (tx_data tx2)); [|reflexivity].
  destruct (util.ToFixedSizeByteSlice (tx_gasPrice tx2)); [|reflexivity].
  destruct (util.ToFixedSizeByteSlice (tx_gasLimit tx2)); [|reflexivity].
  cbn [concat]. rewrite !(app_assoc (address _) (address _)), Hft. reflexivity.
Qed.

Lemma Sign_Err_inv (tx tx' : Transaction) (signature : Signature) (e : Error) :
  Sign tx signature = (tx', Some e) -> tx' = tx.
Proof.
  unfold Sign.
  destruct (HashTransaction tx) as [h|e1]; [|intros [= <- _]; reflexivity].
  destruct (SignHash signature h) as [s|e2]; [|intros [= <- _]; reflexivity].
  discriminate.
Qed.

Lemma Sign_Ok_inv (tx tx' : Transaction) (signature : Signature) :
  Sign tx signature = (tx', None) ->
  exists h s,
    HashTransaction tx = Ok h /\ SignHash signature h = Ok s /\
    tx' = set_sign s (set_alg (Algorithm signature) (set_hash h tx)).
Proof.
  unfold Sign.
  destruct (HashTransaction tx) as [h|e1]; [|discriminate].
  destruct (SignHash signature h) as [s|e2] eqn:Hs; [|discriminate].
  intros [= <-]. eauto.
Qed.

(** X5: [Sign] either fails, leaving the transaction as it was, or fills
    in hash, alg and sign and nothing else; the hash it stores is the
    canonical hash of the transaction, which is also the canonical hash of
    the signed transaction. *)
Theorem Sign_outcome (tx tx' : Transaction) (signature : Signature)
  (err : option Error) :
  Sign tx signature = (tx', err) ->
  match err with
  | Some _ => tx' = tx
  | None =>
    tx_from tx' = tx_from tx /\ tx_to tx' = tx_to tx /\ tx_value tx' = tx_value tx /\
    tx_nonce tx' = tx_nonce tx /\ tx_timestamp tx' = tx_timestamp tx /\
    tx_data tx' = tx_data tx /\ tx_chainID tx' = tx_chainID tx /\
    tx_gasPrice tx' = tx_gasPrice tx /\ tx_gasLimit tx' = tx_gasLimit tx /\
    tx_alg tx' = Algorithm signature /\
    SignHash signature (tx_hash tx') = Ok (tx_sign tx') /\
    HashTransaction tx = Ok (tx_hash tx') /\
    HashTransaction tx' = Ok (tx_hash tx')
  end.
Proof.
  intros Hsign. destruct err as [e|].
  - exact (Sign_Err_inv _ _ _ _ Hsign).
  - destruct (Sign_Ok_inv _ _ _ Hsign) as (h & s & Hh & Hs & ->).
    cbn [tx_from tx_to tx_value tx_nonce tx_timestamp tx_data
      tx_chainID tx_gasPrice tx_gasLimit tx_alg tx_sign tx_hash
      set_hash set_alg set_sign].
    rewrite HashTransaction_ignores_signature.
    repeat split; assumption || reflexivity.
Qed.

(** X6: signing then verifying.  A transaction that [Sign] has signed
    passes [VerifyIntegrity] on its own chain id whenever the address
    recovered from its hash and signature is the sender's; and on any other
    chain id it is refused with [ErrInvalidChainID]. *)
Theorem Sign_VerifyIntegrity (tx tx' : Transaction) (signature : Signature)
  (addr : Address) :
  Sign tx signature = (tx', None) ->
  recoveredAddress tx' = Ok addr ->
  address addr = address (tx_from tx) ->
  VerifyIntegrity tx' (tx_chainID tx) = None /\
  forall chainID, chainID <> tx_chainID tx ->
    VerifyIntegrity tx' chainID = Some ErrInvalidChainID.
Proof.
  intros Hsign Hrec Haddr.
  destruct (Sign_Ok_inv _ _ _ Hsign) as (h & s & Hh' & _ & Htx).
  assert (Hfrom : tx_from tx' = tx_from tx) by (subst tx'; reflexivity).
  assert (Hchain : tx_chainID tx' = tx_chainID tx) by (subst tx'; reflexivity).
  assert (Hh : HashTransaction tx' = Ok (tx_hash tx'))
    by (subst tx'; rewrite HashTransaction_ignores_signature; exact Hh').
  unfold VerifyIntegrity. rewrite Hchain. split.
  - rewrite Z.eqb_refl. cbn [negb]. rewrite Hh.
    unfold byteutils.Equals. rewrite bool_decide_eq_true_2 by reflexivity.
    cbn [negb]. rewrite verifySign_recovered, Hrec.
    rewrite (proj2 (Address_Equals_true (tx_from tx') addr)); [reflexivity|].
    rewrite Hfrom. congruence.
  - intros c Hc. apply not_eq_sym in Hc. apply Z.eqb_neq in Hc. rewrite Hc.
    reflexivity.
Qed.

(** X7: what a passed integrity check guarantees.  When
    [VerifyIntegrity] returns no error, the chain id is the expected one,
    the stored hash is the canonical hash, the address recovered from hash
    and signature byte-equals the sender, the three amounts lie in the
    128-bit range, and [ToProto] succeeds on the transaction. *)
Theorem VerifyIntegrity_passed (tx : Transaction) (chainID : Z) :
  VerifyIntegrity tx chainID = None ->
  tx_chainID tx = chainID /\
  HashTransaction tx = Ok (tx_hash tx) /\
  (exists addr, recoveredAddress tx = Ok addr /\ address addr = address (tx_from tx)) /\
  0 <= tx_value tx < 2 ^ 128 /\ 0 <= tx_gasPrice tx < 2 ^ 128 /\
  0 <= tx_gasLimit tx < 2 ^ 128 /\
  exists msg, ToProto tx = Ok msg.
Proof.
  unfold VerifyIntegrity.
  destruct (Z.eqb_spec (tx_chainID tx) chainID) as [Hc|Hc]; [|discriminate].
  cbn [negb].
  destruct (HashTransaction tx) as [h|e] eqn:Hh; [|discriminate].
  unfold byteutils.Equals. case_bool_decide as Heq; [|discriminate].
  cbn [negb]. subst h. rewrite verifySign_recovered.
  destruct (recoveredAddress tx) as [addr|e] eqn:Hrec; [|discriminate].
  destruct (Address_Equals (tx_from tx) addr) eqn:HE; [|discriminate].
  intros _. apply Address_Equals_true in HE.
  destruct (HashTransaction_Ok_inv _ _ Hh) as (Hv & Hp & Hl & _).
  split; [exact Hc|]. split; [reflexivity|]. split; [eauto|].
  split; [exact Hv|]. split; [exact Hp|]. split; [exact Hl|].
  unfold ToProto.
  rewrite (proj2 (ToFixedSizeByteSlice_Ok _ _) (conj Hv eq_refl)).
  rewrite (proj2 (ToFixedSizeByteSlice_Ok _ _) (conj Hp eq_refl)).
  rewrite (proj2 (ToFixedSizeByteSlice_Ok _ _) (conj Hl eq_refl)).
  eauto.
Qed.

(** X8: a transaction that [FromProto] has decoded from the wire always
    has amounts in the 128-bit range, so [HashTransaction] succeeds on it
    whenever its data record serializes. *)
Theorem FromProto_then_hash (fresh tx : Transaction) (msg : proto_Message)
  (data : bytes) :
  FromProto fresh msg = (tx, None) ->
  proto_Marshal (tx_data tx) = Ok data ->
  0 <= tx_value tx < 2 ^ 128 /\ 0 <= tx_gasPrice tx < 2 ^ 128 /\
  0 <= tx_gasLimit tx < 2 ^ 128 /\
  HashTransaction tx = Ok (canonicalHash tx data).
Proof.
  intros Hfrom Hdata. destruct msg as [m|d]; [|discriminate].
  destruct (FromProto_Ok_inv _ _ _ Hfrom) as [Hfix ->].
  apply fixedSizeAmounts_true in Hfix as (Hv & Hp & Hl).
  pose proof (be_value_bound (corepb.Value m)) as Bv.
  pose proof (be_value_bound (corepb.GasPrice m)) as Bp.
  pose proof (be_value_bound (corepb.GasLimit m)) as Bl.
  rewrite Hv in Bv. rewrite Hp in Bp. rewrite Hl in Bl.
  change (256 ^ Z.of_nat 16) with (2 ^ 128) in *.
  cbn [tx_value tx_gasPrice tx_gasLimit tx_data] in *.
  split; [exact Bv|]. split; [exact Bp|]. split; [exact Bl|].
  unfold HashTransaction, bind. cbn [tx_value tx_gasPrice tx_gasLimit tx_data].
  rewrite (proj2 (ToFixedSizeByteSlice_Ok _ _) (conj Bv eq_refl)), Hdata.
  rewrite (proj2 (ToFixedSizeByteSlice_Ok _ _) (conj Bp eq_refl)).
  rewrite (proj2 (ToFixedSizeByteSlice_Ok _ _) (conj Bl eq_refl)).
  rewrite Sha3256_canonical. reflexivity.
Qed.

End SignAndVerify.

Lemma HashTransaction_from_to_boundary_witness :
  set_from (mkAddress [x0a; x0b]) (set_to (mkAddress [x0c]) transfer)
  <> set_from (mkAddress [x0a]) (set_to (mkAddress [x0b; x0c]) transfer) /\
  HashTransaction (set_from (mkAddress [x0a; x0b]) (set_to (mkAddress [x0c]) transfer))
  = HashTransaction (set_from (mkAddress [x0a]) (set_to (mkAddress [x0b; x0c]) transfer)).
Proof.
  split; [vm_compute; congruence|].
  apply HashTransaction_from_to_boundary; reflexivity.
Defined.

Lemma Sign_outcome_witness :
  HashTransaction transfer = Ok (tx_hash signedTransfer) /\
  tx_alg signedTransfer = x01.
Proof.
  pose proof (Sign_outcome transfer signedTransfer aliceKey None eq_refl)
    as Hout.
  cbn beta iota in Hout. split; apply Hout.
Defined.

Lemma Sign_VerifyIntegrity_witness :
  VerifyIntegrity signedTransfer 100 = None.
Proof.
  apply (Sign_VerifyIntegrity transfer signedTransfer aliceKey alice);
    reflexivity.
Defined.

Lemma VerifyIntegrity_passed_witness :
  exists msg, ToProto signedTransfer = Ok msg.
Proof.
  apply (VerifyIntegrity_passed signedTransfer 100). vm_compute. reflexivity.
Defined.

Lemma FromProto_then_hash_witness :
  HashTransaction signedTransfer
  = Ok (canonicalHash signedTransfer (String.list_byte_of_string "binary")).
Proof.
  apply (FromProto_then_hash junk signedTransfer (MsgTransaction wireTransfer));
    vm_compute; reflexivity.
Defined.

(** X9: the contract address can be computed before signing: whatever
    [Sign] returns, the transaction it leaves has the contract address of
    the transaction it was given. *)
Theorem GenerateContractAddress_Sign `{HashEnv} `{SigEnv} `{AddressEnv}
  (tx tx' : Transaction) (signature : Signature) (err : option Error) :
  Sign tx signature = (tx', err) ->
  GenerateContractAddress tx' = GenerateContractAddress tx.
Proof.
  intros Hsign. destruct err as [e|].
  - rewrite (Sign_Err_inv _ _ _ _ Hsign). reflexivity.
  - destruct (Sign_Ok_inv _ _ _ Hsign) as (h & s & _ & _ & ->). reflexivity.
Qed.

Lemma GenerateContractAddress_Sign_witness :
  GenerateContractAddress signedTransfer = GenerateContractAddress transfer.
Proof.
  apply (GenerateContractAddress_Sign transfer signedTransfer aliceKey None).
  vm_compute. reflexivity.
Defined.

(** ** [NewTransaction] and the gas it asks for *)

(** X10: [NewTransaction] always yields a positive gas price and a
    positive gas limit: a positive amount is kept as given (no upper bound
    is applied), while a missing, zero or negative one is replaced by the
    default, [TransactionGasPrice] (10^6) respectively
    [MinGasCountPerTransaction] (20000).  The new transaction carries no
    hash and no signature. *)
Theorem NewTransaction_gas (chainID : Z) (from to : Address) (value : util.Uint128)
  (nonce : Z) (payloadType : string) (payload : bytes)
  (gasPrice gasLimit : option util.Uint128) (now : Z) :
  let tx := NewTransaction chainID from to value nonce payloadType payload
              gasPrice gasLimit now in
  0 < tx_gasPrice tx /\ 0 < tx_gasLimit tx /\
  (forall p, gasPrice = Some p -> 0 < p -> tx_gasPrice tx = p) /\
  (forall l, gasLimit = Some l -> 0 < l -> tx_gasLimit tx = l) /\
  ((gasPrice = None \/ exists p, gasPrice = Some p /\ p <= 0) ->
   tx_gasPrice tx = 10 ^ 6) /\
  ((gasLimit = None \/ exists l, gasLimit = Some l /\ l <= 0) ->
   tx_gasLimit tx = 20000) /\
  tx_hash tx = [] /\ tx_sign tx = [].
Proof.
  cbv zeta. unfold NewTransaction, TransactionGasPrice, MinGasCountPerTransaction,
    util.NewUint128FromInt. cbn [tx_gasPrice tx_gasLimit tx_hash tx_sign].
  change (10 ^ 6) with 1000000.
  repeat split.
  - destruct gasPrice as [p|]; [destruct (Z.leb_spec p 0)|]; lia.
  - destruct gasLimit as [l|]; [destruct (Z.leb_spec l 0)|]; lia.
  - intros p -> Hp. destruct (Z.leb_spec p 0); [lia | reflexivity].
  - intros l -> Hl. destruct (Z.leb_spec l 0); [lia | reflexivity].
  - intros [-> | (p & -> & Hp)]; [reflexivity|].
    destruct (Z.leb_spec p 0); [reflexivity | lia].
  - intros [-> | (l & -> & Hl)]; [reflexivity|].
    destruct (Z.leb_spec l 0); [reflexivity | lia].
Qed.

Lemma NewTransaction_gas_witness :
  tx_gasPrice defaulted = 10 ^ 6 /\ tx_gasLimit defaulted = 20000.
Proof.
  destruct (NewTransaction_gas 100 alice bob 100 1 TxPayloadBinaryType
              [x01; x02; x03] None None 1514764800)
    as (_ & _ & _ & _ & Hp & Hl & _).
  split; [apply Hp | apply Hl]; left; reflexivity.
Defined.

(** X11: the base gas grows by exactly one unit per payload byte and is
    never below [MinGasCountPerTransaction]; it depends on the transaction
    through the length of its payload only. *)
Theorem GasCountOfTxBase_per_byte (tx1 tx2 : Transaction) :
  GasCountOfTxBase tx2 - GasCountOfTxBase tx1 = DataLen tx2 - DataLen tx1 /\
  MinGasCountPerTransaction <= GasCountOfTxBase tx1 /\
  (DataLen tx1 < DataLen tx2 -> GasCountOfTxBase tx1 < GasCountOfTxBase tx2).
Proof.
  rewrite !GasCountOfTxBase_eq. unfold MinGasCountPerTransaction, util.NewUint128FromInt.
  assert (0 <= DataLen tx1) by (unfold DataLen; lia).
  repeat split; lia.
Qed.

Lemma GasCountOfTxBase_per_byte_witness :
  GasCountOfTxBase transfer < GasCountOfTxBase call.
Proof.
  apply (GasCountOfTxBase_per_byte transfer call). vm_compute. reflexivity.
Defined.

Section MoreExecution.
Context `{PayloadEnv}.

Implicit Types (tx : Transaction) (block : Block) (payload : TxPayload).

(** X12: a transaction built by [NewTransaction] without a gas limit (or
    with a zero or negative one) and with a non-empty payload never gets
    past the pre-flight checks: its limit is the default 20000, below its
    base gas, so [VerifyExecution] rejects it on every block with
    [ErrInsufficientBalance] or [ErrOutOfGasLimit] and leaves the block as
    it was.  With an empty payload the default limit equals the base gas. *)
Theorem NewTransaction_default_limit (chainID : Z) (from to : Address)
  (value : util.Uint128) (nonce : Z) (payloadType : string) (payload : bytes)
  (gasPrice gasLimit : option util.Uint128) (now : Z) :
  let tx := NewTransaction chainID from to value nonce payloadType payload
              gasPrice gasLimit now in
  (gasLimit = None \/ exists l, gasLimit = Some l /\ l <= 0) ->
  (payload = [] -> tx_gasLimit tx = GasCountOfTxBase tx) /\
  (payload <> [] ->
   forall block, exists e,
     VerifyExecution tx block = ((0, Some e), block) /\
     (e = ErrInsufficientBalance \/ e = ErrOutOfGasLimit)).
Proof.
  intros tx Hdefault.
  assert (Hlimit : tx_gasLimit tx = 20000).
  { subst tx. unfold NewTransaction, MinGasCountPerTransaction, util.NewUint128FromInt.
    cbn [tx_gasLimit]. destruct Hdefault as [-> | (l & -> & Hl)]; [reflexivity|].
    destruct (Z.leb_spec l 0); [reflexivity | lia]. }
  assert (Hbase : GasCountOfTxBase tx = 20000 + Z.of_nat (length payload)).
  { rewrite GasCountOfTxBase_eq. reflexivity. }
  split.
  - intros ->. rewrite Hlimit, Hbase. reflexivity.
  - intros Hne block.
    assert (0 < length payload)%nat by (destruct payload; [congruence | cbn; lia]).
    destruct (Z.lt_ge_cases (Balance (address (tx_from tx)) (accState block))
                (MinBalanceRequired tx)) as [Hlt|Hge].
    + exists ErrInsufficientBalance. split; [|auto].
      apply VerifyExecution_insufficient. exact Hlt.
    + exists ErrOutOfGasLimit. split; [|auto].
      apply VerifyExecution_below_base; [exact Hge | lia].
Qed.

(** X13: the payload's budget.  Whenever the payload runs, its
    [PayloadGasLimit] is not negative; a payload that reports exactly its
    budget makes the call return exactly the gas limit, and one that
    reports more makes it return more than the gas limit. *)
Theorem PayloadGasLimit_budget tx block payload gasExecution err st :
  runsPayload tx block payload ->
  Execute payload (NewPayloadContext (batchOpened block) tx) = ((gasExecution, err), st) ->
  0 <= PayloadGasLimit tx payload /\
  (gasExecution = PayloadGasLimit tx payload ->
   fst (VerifyExecution tx block) = (tx_gasLimit tx, None)) /\
  (PayloadGasLimit tx payload < gasExecution ->
   exists gas, fst (VerifyExecution tx block) = (gas, None) /\ tx_gasLimit tx < gas).
Proof.
  intros Hruns Hexec.
  rewrite (VerifyExecution_executed tx block payload gasExecution err st Hruns Hexec).
  cbn [fst]. destruct Hruns as [_ Hge].
  unfold PayloadGasLimit, util.NewUint128FromBigInt. split; [lia|]. split.
  - intros ->. f_equal. lia.
  - intros Hover. eexists. split; [reflexivity | lia].
Qed.

(** X14: an unknown type tag.  For a transaction that passes the
    pre-flight checks and whose type tag is none of binary, deploy, call,
    candidate and delegate, [VerifyExecution] returns the base gas with no
    error, charges gasPrice times the base gas, records one
    [TopicExecuteTxFailed] event carrying [ErrInvalidTxPayloadType], and
    makes no call on the batch. *)
Theorem VerifyExecution_unknown_type tx block :
  passesPreflight tx block ->
  corepb.Type_ (tx_data tx) ∉
    [TxPayloadBinaryType; TxPayloadDeployType; TxPayloadCallType;
     TxPayloadCandidateType; TxPayloadDelegateType] ->
  LoadPayload tx = Err ErrInvalidTxPayloadType /\
  fst (VerifyExecution tx block) = (GasCountOfTxBase tx, None) /\
  accState (snd (VerifyExecution tx block))
  = gasConsumption tx (address (tx_from tx)) (coinbase block) (GasCountOfTxBase tx)
      (accState block) /\
  (exists pbTx,
     events (snd (VerifyExecution tx block))
     = events block ++
       [(tx_hash tx,
         mkEvent TopicExecuteTxFailed (TxErrJSON pbTx ErrInvalidTxPayloadType))]) /\
  batch (snd (VerifyExecution tx block)) = batch block /\
  batchCalls (snd (VerifyExecution tx block)) = batchCalls block.
Proof.
  intros Hpre Htag.
  assert (Hload : LoadPayload tx = Err ErrInvalidTxPayloadType).
  { unfold LoadPayload.
    repeat match goal with
    | |- context [String.eqb ?a ?b] =>
      destruct (String.eqb_spec a b) as [Heq|_];
        [exfalso; apply Htag; rewrite Heq; set_solver|]
    end. reflexivity. }
  split; [exact Hload|].
  rewrite (VerifyExecution_load_failed tx block _ Hpre Hload). cbn [fst snd].
  repeat split.
  match goal with |- context [triggerEvent ?t ?tp ?b ?e] =>
    destruct (events_triggerEvent t tp b e) as (data & Hev & pbTx & ->) end.
  exists pbTx. exact Hev.
Qed.

(** X15: a payload that fails.  When [Execute] returns an error, the
    payload's own changes to the account state are dropped ([RollBack] is
    the one call that closes the batch), the gas is charged on the account
    state as it was before the call, no value is transferred, and the one
    event recorded is [TopicExecuteTxFailed] carrying the payload's error:
    every account other than the sender and the coinbase ends with the
    balance it had. *)
Theorem VerifyExecution_payload_failed tx block payload gasExecution e st :
  runsPayload tx block payload ->
  Execute payload (NewPayloadContext (batchOpened block) tx)
  = ((gasExecution, Some e), st) ->
  let gas := GasCountOfTxBase tx + BaseGasCount payload + gasExecution in
  let after := snd (VerifyExecution tx block) in
  fst (VerifyExecution tx block) = (gas, None) /\
  accState after
  = gasConsumption tx (address (tx_from tx)) (coinbase block) gas (accState block) /\
  (forall a, a <> address (tx_from tx) -> a <> coinbase block ->
     Balance a (accState after) = Balance a (accState block)) /\
  (exists pbTx,
     events after
     = events block ++ [(tx_hash tx, mkEvent TopicExecuteTxFailed (TxErrJSON pbTx e))]) /\
  batch after = None /\
  batchCalls after = batchCalls block ++ [CallBeginBatch; CallRollBack].
Proof.
  intros Hruns Hexec gas after. subst after.
  rewrite (VerifyExecution_executed tx block payload gasExecution (Some e) st Hruns Hexec).
  cbn [fst snd]. fold gas.
  split; [reflexivity|]. split; [reflexivity|]. split; [|split; [|split]].
  - intros a Hfrom Hcb. rewrite accState_triggerEvent.
    cbn [set_accState accState RollBack batchOpened batch default].
    rewrite Balance_gasConsumption.
    rewrite !bool_decide_eq_false_2 by assumption. unfold delta. cbn. lia.
  - match goal with |- context [triggerEvent ?t ?tp ?b ?er] =>
      destruct (events_triggerEvent t tp b er) as (data & Hev & pbTx & ->) end.
    exists pbTx. exact Hev.
  - reflexivity.
  - cbn. rewrite <- app_assoc. reflexivity.
Qed.

(** X16: a sender who cannot cover the value.  When the payload succeeds
    and the sender's balance after the gas charge is below the value, no
    value is transferred, yet the payload's changes stay ([Commit] has
    already closed the batch): the account state is the payload's with the
    gas charged, the one event is [TopicExecuteTxFailed] carrying
    [ErrInsufficientBalance], and the call returns the gas with no error. *)
Theorem VerifyExecution_value_short tx block payload gasExecution st :
  runsPayload tx block payload ->
  Execute payload (NewPayloadContext (batchOpened block) tx) = ((gasExecution, None), st) ->
  let gas := GasCountOfTxBase tx + BaseGasCount payload + gasExecution in
  let charged := gasConsumption tx (address (tx_from tx)) (coinbase block) gas st in
  Balance (address (tx_from tx)) charged < tx_value tx ->
  let after := snd (VerifyExecution tx block) in
  fst (VerifyExecution tx block) = (gas, None) /\
  accState after = charged /\
  (exists pbTx,
     events after
     = events block ++
       [(tx_hash tx, mkEvent TopicExecuteTxFailed (TxErrJSON pbTx ErrInsufficientBalance))]) /\
  batch after = None /\
  batchCalls after = batchCalls block ++ [CallBeginBatch; CallCommit].
Proof.
  intros Hruns Hexec gas charged Hshort after. subst after.
  rewrite (VerifyExecution_executed tx block payload gasExecution None st Hruns Hexec).
  cbn [fst snd Commit set_accState accState]. fold gas. fold charged.
  apply Z.ltb_lt in Hshort. rewrite Hshort.
  split; [reflexivity|]. split; [reflexivity|]. split; [|split].
  - match goal with |- context [triggerEvent ?t ?tp ?b ?er] =>
      destruct (events_triggerEvent t tp b er) as (data & Hev & pbTx & ->) end.
    exists pbTx. exact Hev.
  - reflexivity.
  - cbn. rewrite <- app_assoc. reflexivity.
Qed.

(** X17: failed transactions do not overdraw the sender.  With a gas
    price that is not negative, after a call that passed the pre-flight
    checks and then failed to load its payload, or fell short of the
    payload's base gas, or ran a payload that failed within its budget, the
    sender's balance is not negative. *)
Theorem VerifyExecution_no_overdraft tx block :
  passesPreflight tx block ->
  0 <= tx_gasPrice tx ->
  let after := accState (snd (VerifyExecution tx block)) in
  (forall e, LoadPayload tx = Err e -> 0 <= Balance (address (tx_from tx)) after) /\
  (forall payload, opensBatch tx block payload ->
     tx_gasLimit tx < GasCountOfTxBase tx + BaseGasCount payload ->
     0 <= Balance (address (tx_from tx)) after) /\
  (forall payload gasExecution e st, runsPayload tx block payload ->
     Execute payload (NewPayloadContext (batchOpened block) tx)
     = ((gasExecution, Some e), st) ->
     gasExecution <= PayloadGasLimit tx payload ->
     0 <= Balance (address (tx_from tx)) after).
Proof.
  intros Hpre Hprice after. subst after.
  pose proof Hpre as [Hmin Hbase].
  unfold MinBalanceRequired, GasPrice, GasLimit, util.NewUint128FromBigInt in Hmin.
  assert (Hpos : 20000 <= GasCountOfTxBase tx)
    by (rewrite GasCountOfTxBase_eq; unfold DataLen; lia).
  split; [|split].
  - intros e Hload. rewrite (VerifyExecution_load_failed tx block e Hpre Hload).
    cbn [snd]. rewrite accState_triggerEvent. cbn [set_accState accState].
    rewrite Balance_gasConsumption, bool_decide_eq_true_2 by reflexivity.
    unfold delta. case_bool_decide; nia.
  - intros payload Hopen Hlt.
    rewrite (VerifyExecution_payload_base tx block payload Hopen Hlt).
    cbn [snd]. rewrite accState_triggerEvent. cbn [set_accState accState].
    rewrite Balance_gasConsumption, bool_decide_eq_true_2 by reflexivity.
    unfold delta. case_bool_decide; nia.
  - intros payload gasExecution e st Hruns Hexec Hbudget.
    rewrite (VerifyExecution_executed tx block payload gasExecution (Some e) st
               Hruns Hexec).
    cbn [snd]. rewrite accState_triggerEvent.
    cbn [set_accState accState RollBack batchOpened batch default]. unfold id.
    rewrite Balance_gasConsumption, bool_decide_eq_true_2 by reflexivity.
    unfold PayloadGasLimit, util.NewUint128FromBigInt in Hbudget.
    unfold delta. case_bool_decide; nia.
Qed.

End MoreExecution.

Lemma NewTransaction_default_limit_witness :
  exists e, VerifyExecution defaulted genesis = ((0, Some e), genesis).
Proof.
  destruct (NewTransaction_default_limit 100 alice bob 100 1 TxPayloadBinaryType
              [x01; x02; x03] None None 1514764800 (or_introl eq_refl))
    as [_ Hrej].
  destruct (Hrej ltac:(discriminate) genesis) as (e & He & _).
  exists e. exact He.
Defined.

Lemma PayloadGasLimit_budget_witness :
  0 <= PayloadGasLimit transfer binaryPayload /\
  fst (VerifyExecution transfer genesis) = (tx_gasLimit transfer, None).
Proof.
  destruct (PayloadGasLimit_budget transfer genesis binaryPayload 0 None
              (AddBalance [xee] 0 (accState genesis)) runsPayload_transfer eq_refl)
    as (Hpos & Hexact & _).
  split; [exact Hpos | apply Hexact; reflexivity].
Defined.

Lemma passesPreflight_junk : passesPreflight junk genesis.
Proof. split; vm_compute; congruence. Qed.

Lemma VerifyExecution_unknown_type_witness :
  fst (VerifyExecution junk genesis) = (GasCountOfTxBase junk, None).
Proof.
  apply (VerifyExecution_unknown_type junk genesis passesPreflight_junk).
  apply (bool_decide_unpack _). vm_compute. exact I.
Defined.

Lemma runsPayload_delegate : runsPayload delegate genesis delegatePayload.
Proof. repeat split; vm_compute; congruence. Qed.

Lemma VerifyExecution_payload_failed_witness :
  Balance [xee] (accState (snd (VerifyExecution delegate genesis)))
  = Balance [xee] (accState genesis) /\
  batchCalls (snd (VerifyExecution delegate genesis)) = [CallBeginBatch; CallRollBack].
Proof.
  destruct (VerifyExecution_payload_failed delegate genesis delegatePayload 500
              (ErrExternal "delegate: failed")
              (AddBalance [xee] 7 (accState genesis))
              runsPayload_delegate eq_refl)
    as (_ & _ & Hother & _ & _ & Hcalls).
  split; [apply Hother; vm_compute; congruence | exact Hcalls].
Defined.

Lemma runsPayload_short :
  runsPayload transfer (funded (10 ^ 6 * 20000 + 99)) binaryPayload.
Proof. repeat split; vm_compute; congruence. Qed.

Lemma VerifyExecution_value_short_witness :
  fst (VerifyExecution transfer (funded (10 ^ 6 * 20000 + 99))) = (20000, None) /\
  batchCalls (snd (VerifyExecution transfer (funded (10 ^ 6 * 20000 + 99))))
  = [CallBeginBatch; CallCommit].
Proof.
  destruct (VerifyExecution_value_short transfer (funded (10 ^ 6 * 20000 + 99))
              binaryPayload 0
              (AddBalance [xee] 0 (accState (funded (10 ^ 6 * 20000 + 99))))
              runsPayload_short eq_refl ltac:(vm_compute; reflexivity))
    as (Hgas & _ & _ & _ & Hcalls).
  split; [exact Hgas | exact Hcalls].
Defined.

Lemma VerifyExecution_no_overdraft_witness :
  0 <= Balance (address alice) (accState (snd (VerifyExecution junk genesis))).
Proof.
  destruct (VerifyExecution_no_overdraft junk genesis passesPreflight_junk
              ltac:(vm_compute; congruence)) as (Hload & _).
  apply (Hload ErrInvalidTxPayloadType). vm_compute. reflexivity.
Defined.

(** ** Conservation *)

Lemma TotalBalance_insert (k : bytes) (v : Z) (st : AccountState) :
  TotalBalance (<[k := v]> st) = TotalBalance st - Balance k st + v.
Proof.
  assert (Hcomm : forall z1 z2 y : Z, z1 + (z2 + y) = z2 + (z1 + y)) by (intros; lia).
  unfold TotalBalance, Balance, Account.
  destruct (st !! k) as [x|] eqn:Hk; cbn [default from_option id].
  - rewrite <- (insert_delete_eq st k v).
    rewrite map_fold_insert_L; [|intros; apply Hcomm | apply lookup_delete_eq].
    rewrite (map_fold_delete_L _ _ k x st); [lia | intros; apply Hcomm | exact Hk].
  - rewrite map_fold_insert_L; [lia | intros; apply Hcomm | exact Hk].
Qed.

Lemma TotalBalance_AddBalance (a : Account) (v : Z) (st : AccountState) :
  TotalBalance (AddBalance a v st) = TotalBalance st + v.
Proof. unfold AddBalance. rewrite TotalBalance_insert. lia. Qed.

Lemma TotalBalance_SubBalance (a : Account) (v : Z) (st : AccountState) :
  TotalBalance (SubBalance a v st) = TotalBalance st - v.
Proof. unfold SubBalance. rewrite TotalBalance_insert. lia. Qed.


Lemma TotalBalance_gasConsumption (tx : Transaction) (from cb : Account) (gas : Z)
  (st : AccountState) :
  TotalBalance (gasConsumption tx from cb gas st) = TotalBalance st.
Proof.
  unfold gasConsumption. rewrite TotalBalance_AddBalance, TotalBalance_SubBalance. lia.
Qed.

(** X18: [gasConsumption] moves gasPrice * gas from the payer to the
    coinbase and touches nobody else: the sum of all balances is unchanged,
    and when the payer is the coinbase every balance is unchanged. *)
Theorem gasConsumption_moves (tx : Transaction) (from cb : Account) (gas : Z)
  (st : AccountState) :
  let st' := gasConsumption tx from cb gas st in
  TotalBalance st' = TotalBalance st /\
  (forall a, a <> from -> a <> cb -> Balance a st' = Balance a st) /\
  (from <> cb ->
   Balance from st' = Balance from st - tx_gasPrice tx * gas /\
   Balance cb st' = Balance cb st + tx_gasPrice tx * gas) /\
  (from = cb -> forall a, Balance a st' = Balance a st).
Proof.
  cbv zeta. split; [|split; [|split]].
  - apply TotalBalance_gasConsumption.
  - intros a Hf Hc. rewrite Balance_gasConsumption.
    rewrite !bool_decide_eq_false_2 by assumption. unfold delta. lia.
  - intros Hne. rewrite !Balance_gasConsumption. unfold delta.
    repeat case_bool_decide; try congruence; lia.
  - intros -> a. rewrite Balance_gasConsumption. unfold delta.
    case_bool_decide; lia.
Qed.

Lemma gasConsumption_moves_witness :
  Balance miner (gasConsumption transfer (address alice) miner 20000 (accState genesis))
  = 0 + 10 ^ 6 * 20000.
Proof.
  destruct (gasConsumption_moves transfer (address alice) miner 20000 (accState genesis))
    as (_ & _ & Hmove & _).
  apply Hmove. vm_compute. congruence.
Defined.

Section Conservation.
Context `{PayloadEnv}.


End Conservation.


(** ** Errors and success, seen from the caller *)

Section CallerView.
Context `{PayloadEnv}.

Implicit Types (tx : Transaction) (block : Block) (payload : TxPayload).

(** X20: an error return means nothing happened.  Whenever
    [VerifyExecution] returns an error, the returned gas is zero, the block
    is exactly the block it was given (balances, events, batch), and the
    error is [ErrInsufficientBalance], [ErrOutOfGasLimit] or the error the
    batch met on opening; errors of the payload loader and of the payload
    itself are never returned. *)
Theorem VerifyExecution_error tx block gas e block' :
  VerifyExecution tx block = ((gas, Some e), block') ->
  gas = 0 /\ block' = block /\
  (e = ErrInsufficientBalance \/ e = ErrOutOfGasLimit \/ batchFault block = Some e).
Proof.
  unfold VerifyExecution, BeginBatch.
  repeat match goal with
  | |- context [if ?c then _ else _] => destruct c
  | |- context [match LoadPayload ?t with _ => _ end] => destruct (LoadPayload t)
  | |- context [match batchFault ?b with _ => _ end] =>
    destruct (batchFault b) eqn:?
  | |- context [Execute ?p ?c] => destruct (Execute p c) as [[? [?|]] ?]
  end; intros [= <- <- <-] || intros [=]; auto.
Qed.

(** X21: a success event means the value moved.  [VerifyExecution]
    records a [TopicExecuteTxSuccess] event exactly when the payload ran
    without error and the sender's balance after the gas charge covered the
    value; the account state is then the payload's, with the gas charged
    and the value moved from sender to receiver. *)
Theorem VerifyExecution_success_iff tx block :
  (exists data,
     events (snd (VerifyExecution tx block))
     = events block ++ [(tx_hash tx, mkEvent TopicExecuteTxSuccess data)]) <->
  (exists payload gasExecution st,
     runsPayload tx block payload /\
     Execute payload (NewPayloadContext (batchOpened block) tx)
     = ((gasExecution, None), st) /\
     let gas := GasCountOfTxBase tx + BaseGasCount payload + gasExecution in
     let charged := gasConsumption tx (address (tx_from tx)) (coinbase block) gas st in
     tx_value tx <= Balance (address (tx_from tx)) charged /\
     accState (snd (VerifyExecution tx block))
     = AddBalance (address (tx_to tx)) (tx_value tx)
         (SubBalance (address (tx_from tx)) (tx_value tx) charged)).
Proof.
  assert (Hnone : forall (l : list (byteutils.Hash * Event)) x, l <> l ++ [x]).
  { intros l x Heq. apply (f_equal length) in Heq. rewrite length_app in Heq.
    cbn in Heq. lia. }
  assert (Hfailed : forall (l : list (byteutils.Hash * Event)) h d d',
            l ++ [(h, mkEvent TopicExecuteTxFailed d)]
            <> l ++ [(h, mkEvent TopicExecuteTxSuccess d')]).
  { intros l h d d' Heq. apply app_inv_head in Heq. discriminate. }
  split.
  - intros [data Hev].
    destruct (Z.lt_ge_cases (Balance (address (tx_from tx)) (accState block))
                (MinBalanceRequired tx)) as [Hlt|Hge].
    { rewrite VerifyExecution_insufficient in Hev by exact Hlt.
      exfalso. exact (Hnone _ _ Hev). }
    destruct (Z.lt_ge_cases (tx_gasLimit tx) (GasCountOfTxBase tx)) as [Hlt|Hge'].
    { rewrite VerifyExecution_below_base in Hev by assumption.
      exfalso. exact (Hnone _ _ Hev). }
    assert (Hpre : passesPreflight tx block) by (split; assumption).
    destruct (LoadPayload tx) as [payload|e] eqn:Hload.
    2:{ rewrite (VerifyExecution_load_failed tx block e Hpre Hload) in Hev.
        exfalso. exact (Hfailed _ _ _ _ Hev). }
    destruct (batchFault block) as [e|] eqn:Hf.
    { rewrite (VerifyExecution_batch_failed tx block payload e Hpre Hload Hf) in Hev.
      exfalso. exact (Hnone _ _ Hev). }
    assert (Hopen : opensBatch tx block payload)
      by (repeat split; assumption || apply Hpre).
    destruct (Z.lt_ge_cases (tx_gasLimit tx) (GasCountOfTxBase tx + BaseGasCount payload))
      as [Hlt|Hge''].
    { rewrite (VerifyExecution_payload_base tx block payload Hopen Hlt) in Hev.
      exfalso. exact (Hfailed _ _ _ _ Hev). }
    assert (Hruns : runsPayload tx block payload) by (split; assumption).
    destruct (Execute payload (NewPayloadContext (batchOpened block) tx))
      as [[gasExecution err] st] eqn:Hexec.
    pose proof (VerifyExecution_executed tx block payload gasExecution err st
                  Hruns Hexec) as Hrun. cbv zeta in Hrun.
    rewrite Hrun in Hev. cbn [snd] in Hev.
    destruct err as [e|].
    { exfalso. exact (Hfailed _ _ _ _ Hev). }
    cbn [Commit set_accState accState] in Hev, Hrun.
    destruct (Balance (address (tx_from tx))
                (gasConsumption tx (address (tx_from tx)) (coinbase block)
                   (GasCountOfTxBase tx + BaseGasCount payload + gasExecution) st)
              <? tx_value tx) eqn:Hv.
    { exfalso. exact (Hfailed _ _ _ _ Hev). }
    exists payload, gasExecution, st.
    split; [exact Hruns|]. split; [exact Hexec|]. cbv zeta.
    apply Z.ltb_ge in Hv. split; [exact Hv|].
    rewrite Hrun. cbn [snd]. rewrite accState_triggerEvent. cbn [set_accState accState].
    unfold settleValue. apply Z.ltb_ge in Hv. rewrite Hv. reflexivity.
  - intros (payload & gasExecution & st & Hruns & Hexec & Hv & _).
    rewrite (VerifyExecution_executed tx block payload gasExecution None st Hruns Hexec).
    cbn [snd Commit set_accState accState].
    apply Z.ltb_ge in Hv. rewrite Hv.
    match goal with |- context [triggerEvent ?t ?tp ?b ?er] =>
      destruct (events_triggerEvent t tp b er) as (data & Hev & _) end.
    exists data. exact Hev.
Qed.

End CallerView.

Lemma VerifyExecution_error_witness :
  VerifyExecution transfer midBatch
  = ((0, Some (ErrExternal "batch: already open")), midBatch).
Proof.
  destruct (VerifyExecution transfer midBatch) as [[gas err] block'] eqn:Hrun.
  assert (Herr : err = Some (ErrExternal "batch: already open"))
    by (apply (f_equal (fun r => snd (fst r))) in Hrun; vm_compute in Hrun; congruence).
  subst err.
  destruct (VerifyExecution_error _ _ _ _ _ Hrun) as (-> & -> & _). reflexivity.
Defined.

Lemma VerifyExecution_success_iff_witness :
  exists data,
    events (snd (VerifyExecution transfer genesis))
    = events genesis ++ [(tx_hash transfer, mkEvent TopicExecuteTxSuccess data)].
Proof.
  apply (VerifyExecution_success_iff transfer genesis).
  exists binaryPayload, 0, (AddBalance [xee] 0 (accState genesis)).
  split; [exact runsPayload_transfer|]. split; [reflexivity|].
  cbv zeta. split; [vm_compute; congruence|].
  rewrite (VerifyExecution_executed transfer genesis binaryPayload 0 None
             (AddBalance [xee] 0 (accState genesis)) runsPayload_transfer eq_refl).
  reflexivity.
Defined.
